(** * gong-mcp: the signed-request client and the tool router of [src/index.ts]

    A shallow embedding of the Gong MCP adapter: JavaScript values as the
    program sees them, the signature generator, the authenticated request
    dispatcher, the three argument validators, the three client methods and
    the tool-invocation handler, followed by the properties of the
    specification that concern them.

    Conventions of the embedding.
    - A JavaScript string is represented by the bytes of its UTF-8 encoding
      (a Rocq [string]); [TextEncoder.encode] is then the identity on bytes.
    - A JavaScript number is represented by an integer ([Z]), standing for
      a number that holds it exactly; the program only tests numbers for
      truthiness and type and serialises them.
    - An object is the association list of its own properties in the order
      [JSON.stringify] enumerates them, which is insertion order for the
      field names the program adds.  Inherited properties are not
      represented: no field name the program reads or tests comes from a
      prototype.
    - The values are those of JSON together with [undefined]; functions,
      symbols and the like do not reach the program through the protocol.
    - Network and clock are explicit: a computation threads the log of the
      requests handed to [axios] and either completes normally or throws. *)

From Stdlib Require Import List String Ascii ZArith NArith Lia Bool.
From Stdlib.Strings Require Import Byte.
From Stdlib Require Import DecimalString.
Import ListNotations.
Local Open Scope list_scope.
Local Open Scope string_scope.
#[local] Set Warnings "-register-all".

(** ** JavaScript values *)

Module Js.

Inductive Value : Type :=
| Undefined
| Null
| Bool (b : bool)
| Num (n : Z)
| Str (s : string)
| Arr (elements : list Value)
| Obj (properties : list (string * Value)).

(** [ToBoolean]: what [if (v)], [!v], [a || b] and [c ? x : y] test. *)
Definition truthy (v : Value) : bool :=
  match v with
  | Undefined | Null => false
  | Bool b => b
  | Num n => negb (n =? 0)%Z
  | Str s => negb (s =? "")
  | Arr _ | Obj _ => true
  end.

(** [a || b] *)
Definition logical_or (a b : Value) : Value := if truthy a then a else b.

(** [typeof v] *)
Definition typeof (v : Value) : string :=
  match v with
  | Undefined => "undefined"
  | Null => "object"
  | Bool _ => "boolean"
  | Num _ => "number"
  | Str _ => "string"
  | Arr _ | Obj _ => "object"
  end.

(** [Array.isArray(v)] *)
Definition isArray (v : Value) : bool :=
  match v with Arr _ => true | _ => false end.

(** Decimal rendering of an integer-valued number ([Number::toString]), as
    it is for the integers a number holds exactly (magnitude below 2^53);
    larger magnitudes, which print rounded or with an exponent, are outside
    the embedding. *)
Definition Z_to_string (n : Z) : string :=
  NilZero.string_of_int (Z.to_int n).

Definition nat_to_string (n : nat) : string := Z_to_string (Z.of_nat n).

(** Lookup in an association list, first binding of the key. *)
Fixpoint assoc (k : string) (l : list (string * Value)) : option Value :=
  match l with
  | [] => None
  | (k', v) :: rest => if k' =? k then Some v else assoc k rest
  end.

(** The element of an array designated by a property key, when the key is
    the canonical decimal form of an index below the length. *)
Fixpoint index_lookup (k : string) (i : nat) (l : list Value) : option Value :=
  match l with
  | [] => None
  | x :: rest => if nat_to_string i =? k then Some x else index_lookup k (S i) rest
  end.

(** [k in v] for an object or array [v].  The program applies [in] only
    behind [typeof v === "object" && v !== null]; on the other values, where
    the conjunction is already false, the answer here is [false]. *)
Definition has_property (v : Value) (k : string) : bool :=
  match v with
  | Obj l => match assoc k l with Some _ => true | None => false end
  | Arr l => (k =? "length") || match index_lookup k 0 l with Some _ => true | None => false end
  | _ => false
  end.

(** [v.k] for a [v] that is neither [null] nor [undefined] (for those the
    access throws, see [Gong.prop]).  Primitive wrappers have none of the
    fields the program reads. *)
Definition get (v : Value) (k : string) : Value :=
  match v with
  | Obj l => match assoc k l with Some x => x | None => Undefined end
  | Arr l =>
      if k =? "length" then Num (Z.of_nat (List.length l))
      else match index_lookup k 0 l with Some x => x | None => Undefined end
  | _ => Undefined
  end.

(** [o.k = x] on an association list: overwrite in place, or append. *)
Fixpoint assoc_set (k : string) (x : Value) (l : list (string * Value))
  : list (string * Value) :=
  match l with
  | [] => [(k, x)]
  | (k', v) :: rest =>
      if k' =? k then (k', x) :: rest else (k', v) :: assoc_set k x rest
  end.

(** [delete o.k] on an association list. *)
Fixpoint assoc_remove (k : string) (l : list (string * Value))
  : list (string * Value) :=
  match l with
  | [] => []
  | (k', v) :: rest =>
      if k' =? k then assoc_remove k rest else (k', v) :: assoc_remove k rest
  end.

(** [arr.every(id => typeof id === "string")] *)
Definition every_string (l : list Value) : bool :=
  forallb (fun id => typeof id =? "string") l.

(** *** Strings *)

Definition hex_digit (n : N) : ascii :=
  ascii_of_N (if (n <? 10)%N then 48 + n else 87 + n)%N.

(** One character of a JSON string literal ([QuoteJSONString]). *)
Definition quote_char (c : ascii) : string :=
  let n := N_of_ascii c in
  if (n =? 34)%N then "\"  ++ String c ""
  else if (n =? 92)%N then "\\"
  else if (n =? 8)%N then "\b"
  else if (n =? 12)%N then "\f"
  else if (n =? 10)%N then "\n"
  else if (n =? 13)%N then "\r"
  else if (n =? 9)%N then "\t"
  else if (n <? 32)%N then
    "\u00" ++ String (hex_digit (n / 16)) (String (hex_digit (n mod 16)) "")
  else String c "".

Fixpoint quote_body (s : string) : string :=
  match s with
  | EmptyString => ""
  | String c rest => quote_char c ++ quote_body rest
  end.

Definition dquote : string := String (ascii_of_N 34) "".

Definition quote (s : string) : string := dquote ++ quote_body s ++ dquote.

Definition newline : string := String (ascii_of_N 10) "".

Fixpoint join (sep : string) (l : list string) : string :=
  match l with
  | [] => ""
  | [x] => x
  | x :: rest => x ++ sep ++ join sep rest
  end.

Fixpoint spaces (n : nat) : string :=
  match n with O => "" | S m => " " ++ spaces m end.

(** The text of a bracketed JSON aggregate at nesting [depth], with [gap]
    spaces per level ([gap = 0]: the compact form). *)
Definition wrap (gap depth : nat) (l r : string) (items : list string) : string :=
  match items with
  | [] => l ++ r
  | _ =>
      if (gap =? 0)%nat then l ++ join "," items ++ r
      else
        l ++ newline ++ spaces (gap * S depth)
          ++ join ("," ++ newline ++ spaces (gap * S depth)) items
          ++ newline ++ spaces (gap * depth) ++ r
  end.

(** [SerializeJSONProperty]: [None] is the [undefined] result. *)
Fixpoint serialize (gap depth : nat) (v : Value) : option string :=
  match v with
  | Undefined => None
  | Null => Some "null"
  | Bool true => Some "true"
  | Bool false => Some "false"
  | Num n => Some (Z_to_string n)
  | Str s => Some (quote s)
  | Arr l =>
      Some (wrap gap depth "[" "]"
              (map (fun x => match serialize gap (S depth) x with
                             | Some t => t
                             | None => "null"
                             end) l))
  | Obj l =>
      Some (wrap gap depth "{" "}"
              (flat_map (fun kv => match serialize gap (S depth) (snd kv) with
                                   | Some t =>
                                       [quote (fst kv) ++ ":"
                                          ++ (if (gap =? 0)%nat then "" else " ")
                                          ++ t]
                                   | None => []
                                   end) l))
  end.

Definition of_option (o : option string) : Value :=
  match o with Some s => Str s | None => Undefined end.

(** [JSON.stringify(v)] *)
Definition JSON_stringify (v : Value) : Value := of_option (serialize 0 0 v).

(** [JSON.stringify(v, null, 2)] *)
Definition JSON_stringify_indent2 (v : Value) : Value :=
  of_option (serialize 2 0 v).

(** [String(v)], also the conversion applied by a template literal. *)
Fixpoint ToString (v : Value) : string :=
  match v with
  | Undefined => "undefined"
  | Null => "null"
  | Bool true => "true"
  | Bool false => "false"
  | Num n => Z_to_string n
  | Str s => s
  | Arr l =>
      join "," (map (fun x => match x with
                              | Undefined | Null => ""
                              | _ => ToString x
                              end) l)
  | Obj _ => "[object Object]"
  end.

(** [haystack.includes(needle)] *)
Fixpoint includes (needle haystack : string) : bool :=
  String.prefix needle haystack
  || match haystack with
     | EmptyString => false
     | String _ rest => includes needle rest
     end.

(** *** Completions

    A thrown value is an [Error] instance (plain [Error], [TypeError], the
    transport's error classes), of which the program reads only [message],
    or any other value. *)
Inductive Exn : Type :=
| ErrorObj (message : string)
| Thrown (v : Value).

Inductive Completion (A : Type) : Type :=
| Normal (a : A)
| Throw (e : Exn).
Arguments Normal {A} a.
Arguments Throw {A} e.

(** [v.k]: reading a property of [null] or [undefined] throws a [TypeError]. *)
Definition prop (v : Value) (k : string) : Completion Value :=
  match v with
  | Undefined | Null =>
      Throw (ErrorObj ("Cannot read properties of " ++ ToString v
                         ++ " (reading '" ++ k ++ "')"))
  | _ => Normal (get v k)
  end.

End Js.


(** ** Bytes, base64 and HMAC-SHA-256

    The platform functions the signature generator calls: [TextEncoder],
    [crypto.subtle.importKey] / [crypto.subtle.sign] for HMAC with SHA-256
    (FIPS 180-4, RFC 2104), [String.fromCharCode], [btoa] and
    [Buffer.toString('base64')] (RFC 4648, standard alphabet, padded). *)

Module Platform.

Definition byte_of_Z (z : Z) : byte :=
  match Byte.of_N (Z.to_N (z mod 256)) with
  | Some b => b
  | None => x00
  end.

Definition Z_of_byte (b : byte) : Z := Z.of_N (Byte.to_N b).

(** [new TextEncoder().encode(s)] *)
Definition TextEncoder_encode (s : string) : list byte := list_byte_of_string s.

(** *** Base64 *)

Definition base64_alphabet : string :=
  "ABCDEFGHIJKLMNOPQRSTUVWXYZabcdefghijklmnopqrstuvwxyz0123456789+/".

Definition base64_digit (n : Z) : string :=
  match String.get (Z.to_nat (n mod 64)) base64_alphabet with
  | Some c => String c EmptyString
  | None => "="
  end.

Fixpoint base64_encode (l : list byte) : string :=
  match l with
  | [] => EmptyString
  | [a] =>
      let n := Z_of_byte a in
      base64_digit (Z.shiftr n 2) ++ base64_digit (Z.shiftl n 4) ++ "=="
  | [a; b] =>
      let n := (Z_of_byte a * 256 + Z_of_byte b)%Z in
      base64_digit (Z.shiftr n 10) ++ base64_digit (Z.shiftr n 4)
        ++ base64_digit (Z.shiftl n 2) ++ "="
  | a :: b :: c :: rest =>
      let n := (Z_of_byte a * 65536 + Z_of_byte b * 256 + Z_of_byte c)%Z in
      base64_digit (Z.shiftr n 18) ++ base64_digit (Z.shiftr n 12)
        ++ base64_digit (Z.shiftr n 6) ++ base64_digit n
        ++ base64_encode rest
  end.

(** *** SHA-256 on 32-bit words held in [Z] *)

Definition wrap32 (x : Z) : Z := (x mod 2 ^ 32)%Z.
Definition add32 (x y : Z) : Z := wrap32 (x + y).
Definition rotr32 (n x : Z) : Z :=
  Z.lor (Z.shiftr x n) (wrap32 (Z.shiftl x (32 - n))).
Definition not32 (x : Z) : Z := Z.lxor x 0xffffffff.

Definition Ch (x y z : Z) : Z := Z.lxor (Z.land x y) (Z.land (not32 x) z).
Definition Maj (x y z : Z) : Z :=
  Z.lxor (Z.lxor (Z.land x y) (Z.land x z)) (Z.land y z).
Definition Sigma0 (x : Z) : Z :=
  Z.lxor (Z.lxor (rotr32 2 x) (rotr32 13 x)) (rotr32 22 x).
Definition Sigma1 (x : Z) : Z :=
  Z.lxor (Z.lxor (rotr32 6 x) (rotr32 11 x)) (rotr32 25 x).
Definition sigma0 (x : Z) : Z :=
  Z.lxor (Z.lxor (rotr32 7 x) (rotr32 18 x)) (Z.shiftr x 3).
Definition sigma1 (x : Z) : Z :=
  Z.lxor (Z.lxor (rotr32 17 x) (rotr32 19 x)) (Z.shiftr x 10).

(** The constants of the standard: the first thirty-two bits of the
    fractional parts of the cube roots of the first sixty-four primes, and of
    the square roots of the first eight. *)
Definition is_prime (n : nat) : bool :=
  forallb (fun d => negb (n mod d =? 0)%nat) (seq 2 (n - 2)).

Definition first_primes (count : nat) : list Z :=
  map Z.of_nat (firstn count (filter is_prime (seq 2 310))).

(** The integer cube root, one bit at a time from bit [bits - 1] down. *)
Fixpoint cube_root (bits : nat) (x r : Z) : Z :=
  match bits with
  | O => r
  | S b =>
      let c := (r + 2 ^ Z.of_nat b)%Z in
      if (c * c * c <=? x)%Z then cube_root b x c else cube_root b x r
  end.

Definition K256 : list Z :=
  Eval vm_compute in
    map (fun p => wrap32 (cube_root 36 (p * 2 ^ 96) 0)) (first_primes 64).

Definition H256 : list Z :=
  Eval vm_compute in
    map (fun p => wrap32 (Z.sqrt (p * 2 ^ 64))) (first_primes 8).

(** Message padding: a one bit, zeros, and the bit length on 64 bits. *)
Definition be_bytes (width : nat) (x : Z) : list Z :=
  map (fun i => (Z.shiftr x (8 * Z.of_nat i) mod 256)%Z) (rev (seq 0 width)).

Definition sha_pad (msg : list Z) : list Z :=
  let len := Z.of_nat (List.length msg) in
  let zeros := Z.to_nat ((55 - len) mod 64) in
  (msg ++ [0x80%Z] ++ repeat 0%Z zeros ++ be_bytes 8 (8 * len))%list.

Fixpoint be_words (l : list Z) : list Z :=
  match l with
  | a :: b :: c :: d :: rest =>
      (a * 2 ^ 24 + b * 2 ^ 16 + c * 2 ^ 8 + d)%Z :: be_words rest
  | _ => []
  end.

Fixpoint blocks (fuel : nat) (ws : list Z) : list (list Z) :=
  match fuel, ws with
  | S f, _ :: _ => firstn 16 ws :: blocks f (skipn 16 ws)
  | _, _ => []
  end.

(** The message schedule: sixteen block words extended to sixty-four. *)
Fixpoint extend (n : nat) (w : list Z) : list Z :=
  match n with
  | O => w
  | S m =>
      let i := List.length w in
      let at_ j := nth (i - j) w 0%Z in
      extend m
        (w ++ [add32 (add32 (sigma1 (at_ 2%nat)) (at_ 7%nat))
                     (add32 (sigma0 (at_ 15%nat)) (at_ 16%nat))])%list
  end.

Record registers : Type :=
  Regs { ra : Z; rb : Z; rc : Z; rd : Z; re : Z; rf : Z; rg : Z; rh : Z }.

Definition round (r : registers) (kw : Z * Z) : registers :=
  let t1 :=
    add32 (add32 (add32 (rh r) (Sigma1 (re r))) (Ch (re r) (rf r) (rg r)))
          (add32 (fst kw) (snd kw)) in
  let t2 := add32 (Sigma0 (ra r)) (Maj (ra r) (rb r) (rc r)) in
  Regs (add32 t1 t2) (ra r) (rb r) (rc r) (add32 (rd r) t1) (re r) (rf r) (rg r).

Definition regs_of (h : list Z) : registers :=
  Regs (nth 0 h 0%Z) (nth 1 h 0%Z) (nth 2 h 0%Z) (nth 3 h 0%Z)
       (nth 4 h 0%Z) (nth 5 h 0%Z) (nth 6 h 0%Z) (nth 7 h 0%Z).

Definition compress (h : list Z) (block : list Z) : list Z :=
  let r0 := regs_of h in
  let r := fold_left round (combine K256 (extend 48 block)) r0 in
  [ add32 (ra r0) (ra r); add32 (rb r0) (rb r); add32 (rc r0) (rc r);
    add32 (rd r0) (rd r); add32 (re r0) (re r); add32 (rf r0) (rf r);
    add32 (rg r0) (rg r); add32 (rh r0) (rh r) ].

Definition sha256 (msg : list byte) : list byte :=
  let ws := be_words (sha_pad (map Z_of_byte msg)) in
  let h := fold_left compress (blocks (List.length ws) ws) H256 in
  map byte_of_Z (flat_map (be_bytes 4) h).

(** *** HMAC (RFC 2104) with SHA-256, block size 64 *)

Definition xor_pad (pad : Z) (key : list byte) : list byte :=
  map (fun b => byte_of_Z (Z.lxor (Z_of_byte b) pad)) key.

Definition hmac_key_block (key : list byte) : list byte :=
  let k := if (64 <? List.length key)%nat then sha256 key else key in
  (k ++ repeat x00 (64 - List.length k))%list.

Definition hmac_sha256 (key msg : list byte) : list byte :=
  let k := hmac_key_block key in
  sha256 (xor_pad 0x5c k ++ sha256 (xor_pad 0x36 k ++ msg))%list.

(** [crypto.subtle.importKey('raw', keyData, {name: 'HMAC', hash: 'SHA-256'},
    false, ['sign'])] and [crypto.subtle.sign('HMAC', key, data)], for a key
    that is not empty.  The platform rejects a zero-length key; the program
    starts only with a non-empty secret, so that case does not arise in it. *)
Record CryptoKey : Type := { raw_key : list byte }.

Definition subtle_importKey_HMAC_SHA256 (keyData : list byte) : CryptoKey :=
  {| raw_key := keyData |}.

Definition subtle_sign_HMAC (key : CryptoKey) (messageData : list byte) : list byte :=
  hmac_sha256 (raw_key key) messageData.

(** [String.fromCharCode(...bytes)]: a string given by its code units. *)
Definition String_fromCharCode (bytes : list byte) : list N := map Byte.to_N bytes.

(** [btoa(s)]: base64 of the string's code units read as bytes; a code unit
    above 255 is an [InvalidCharacterError]. *)
Definition btoa (s : list N) : Js.Completion string :=
  if forallb (fun c => (c <=? 255)%N) s
  then Js.Normal (base64_encode (map (fun c => byte_of_Z (Z.of_N c)) s))
  else Js.Throw (Js.ErrorObj "Invalid character").

(** [Buffer.from(s).toString('base64')] *)
Definition Buffer_base64 (s : string) : string :=
  base64_encode (TextEncoder_encode s).

End Platform.

(** ** The program *)

Module Gong.
Import Js Platform.

Definition GONG_API_URL : string := "https://api.gong.io/v2".

(** The configuration object handed to [axios]. *)
Record AxiosRequestConfig : Type := {
  method : string;
  url : string;
  params : Value;
  data : Value;
  headers : list (string * string)
}.

Record AxiosResponse : Type := { response_data : Value; status : Z }.

(** *** Computations: the log of network calls and a completion *)

Definition Log : Type := list AxiosRequestConfig.
Definition M (A : Type) : Type := Log -> Completion A * Log.

Definition ret {A} (a : A) : M A := fun log => (Normal a, log).
Definition throw {A} (e : Exn) : M A := fun log => (Throw e, log).
Definition lift {A} (c : Completion A) : M A := fun log => (c, log).
Definition bind {A B} (c : M A) (k : A -> M B) : M B :=
  fun log =>
    match c log with
    | (Normal a, log') => k a log'
    | (Throw e, log') => (Throw e, log')
    end.
Definition try_catch {A} (body : M A) (handler : Exn -> M A) : M A :=
  fun log =>
    match body log with
    | (Normal a, log') => (Normal a, log')
    | (Throw e, log') => handler e log'
    end.

Notation "x <- c ;; k" := (bind c (fun x => k))
  (at level 61, c at next level, right associativity).

Record GongClient : Type := { accessKey : string; accessSecret : string }.

Definition stringToSign (method path timestamp : string) (params : Value) : string :=
  method ++ newline ++ path ++ newline ++ timestamp ++ newline
    ++ (if truthy params then ToString (JSON_stringify params) else "").

Definition generateSignature (this : GongClient)
    (method path timestamp : string) (params : Value) : Completion string :=
  let keyData := TextEncoder_encode (accessSecret this) in
  let messageData := TextEncoder_encode (stringToSign method path timestamp params) in
  let cryptoKey := subtle_importKey_HMAC_SHA256 keyData in
  let signature := subtle_sign_HMAC cryptoKey messageData in
  btoa (String_fromCharCode signature).

Section Host.

(** The host of one invocation: the reading of the clock
    ([new Date().toISOString()]) and the transport behind [axios], which
    answers a request, given the requests issued before it, with a response
    or a rejection. *)
Variable now : string.
Variable transport : Log -> AxiosRequestConfig -> Completion AxiosResponse.

(** The credentials read from the environment at start-up. *)
Variable GONG_ACCESS_KEY GONG_ACCESS_SECRET : string.

Definition axios (config : AxiosRequestConfig) : M AxiosResponse :=
  fun log => (transport log config, log ++ [config])%list.

Definition request (this : GongClient) (method path : string)
    (params data : Value) : M Value :=
  let timestamp := now in
  let url := GONG_API_URL ++ path in
  let authorization :=
    "Basic " ++ Buffer_base64 (accessKey this ++ ":" ++ accessSecret this) in
  signature <- lift (generateSignature this method path timestamp (logical_or data params)) ;;
  response <- axios {| method := method; url := url; params := params; data := data;
                       headers := [ ("Content-Type", "application/json");
                                    ("Authorization", authorization);
                                    ("X-Gong-AccessKey", accessKey this);
                                    ("X-Gong-Timestamp", timestamp);
                                    ("X-Gong-Signature", signature) ] |} ;;
  ret (response_data response).

Definition listCalls (this : GongClient) (fromDateTime toDateTime : Value) : M Value :=
  let params := [] in
  let params :=
    if truthy fromDateTime then assoc_set "fromDateTime" fromDateTime params else params in
  let params :=
    if truthy toDateTime then assoc_set "toDateTime" toDateTime params else params in
  request this "GET" "/calls" (Obj params) Undefined.

Definition retrieveTranscripts (this : GongClient) (callIds : Value) : M Value :=
  request this "POST" "/calls/transcript" Undefined
    (Obj [ ("filter",
            Obj [ ("callIds", callIds);
                  ("includeEntities", Bool true);
                  ("includeInteractionsSummary", Bool true);
                  ("includeTrackers", Bool true) ]) ]).

(** The six fields are read first: the reads have no effect and throw only
    when [args] is [null] or [undefined], at the first of them. *)
Definition retrieveCallDetails (this : GongClient) (args : Value) : M Value :=
  callIds <- lift (prop args "callIds") ;;
  fromDateTime <- lift (prop args "fromDateTime") ;;
  toDateTime <- lift (prop args "toDateTime") ;;
  primaryUserIds <- lift (prop args "primaryUserIds") ;;
  cursor <- lift (prop args "cursor") ;;
  context <- lift (prop args "context") ;;
  if negb (truthy callIds) && negb (truthy fromDateTime)
     && negb (truthy toDateTime) && negb (truthy primaryUserIds)
  then throw (ErrorObj "At least one filter parameter is required")
  else
    let filter := [] in
    let filter := if truthy callIds then assoc_set "callIds" callIds filter else filter in
    let filter :=
      if truthy fromDateTime then assoc_set "fromDateTime" fromDateTime filter else filter in
    let filter :=
      if truthy toDateTime then assoc_set "toDateTime" toDateTime filter else filter in
    let filter :=
      if truthy primaryUserIds then assoc_set "primaryUserIds" primaryUserIds filter
      else filter in
    let filter := if truthy cursor then assoc_set "cursor" cursor filter else filter in
    request this "POST" "/calls/extensive" Undefined
      (Obj [ ("filter", Obj filter);
             ("contentSelector", Obj [ ("context", logical_or context (Str "Extended")) ]) ]).

Definition gongClient : GongClient :=
  {| accessKey := GONG_ACCESS_KEY; accessSecret := GONG_ACCESS_SECRET |}.

(** *** Tool definitions *)

Record Tool : Type := { tool_name : string; description : string; inputSchema : Value }.

Definition string_property (d : string) : Value :=
  Obj [ ("type", Str "string"); ("description", Str d) ].

Definition string_array_property (d : string) : Value :=
  Obj [ ("type", Str "array");
        ("items", Obj [ ("type", Str "string") ]);
        ("description", Str d) ].

Definition LIST_CALLS_TOOL : Tool := {|
  tool_name := "list_calls";
  description := "List Gong calls with optional date range filtering. Returns call details including ID, title, start/end times, participants, and duration.";
  inputSchema :=
    Obj [ ("type", Str "object");
          ("properties",
           Obj [ ("fromDateTime",
                  string_property "Start date/time in ISO format (e.g. 2024-03-01T00:00:00Z)");
                 ("toDateTime",
                  string_property "End date/time in ISO format (e.g. 2024-03-31T23:59:59Z)") ]) ]
|}.

Definition RETRIEVE_TRANSCRIPTS_TOOL : Tool := {|
  tool_name := "retrieve_transcripts";
  description := "Retrieve transcripts for specified call IDs. Returns detailed transcripts including speaker IDs, topics, and timestamped sentences.";
  inputSchema :=
    Obj [ ("type", Str "object");
          ("properties",
           Obj [ ("callIds",
                  string_array_property "Array of Gong call IDs to retrieve transcripts for") ]);
          ("required", Arr [ Str "callIds" ]) ]
|}.

Definition RETRIEVE_CALL_DETAILS_TOOL : Tool := {|
  tool_name := "retrieve_call_details";
  description := "Retrieve comprehensive call details including topics, trackers, speakers, interaction stats, and CRM data. Requires at least one filter parameter.";
  inputSchema :=
    Obj [ ("type", Str "object");
          ("properties",
           Obj [ ("callIds", string_array_property "Array of call IDs to retrieve");
                 ("fromDateTime",
                  string_property "Start date/time in ISO format (e.g., '2024-03-01T00:00:00Z')");
                 ("toDateTime",
                  string_property "End date/time in ISO format (e.g., '2024-03-31T23:59:59Z')");
                 ("primaryUserIds",
                  string_array_property "Array of primary user IDs to filter by");
                 ("context",
                  string_property "Context level for data retrieval (default: 'Extended' for CRM data)");
                 ("cursor", string_property "Cursor for pagination") ]) ]
|}.

(** *** Type guards *)

Definition is_null (v : Value) : bool :=
  match v with Null => true | _ => false end.

Definition isGongListCallsArgs (args : Value) : bool :=
  (typeof args =? "object")
  && negb (is_null args)
  && (negb (has_property args "fromDateTime")
      || (typeof (get args "fromDateTime") =? "string"))
  && (negb (has_property args "toDateTime")
      || (typeof (get args "toDateTime") =? "string")).

Definition isGongRetrieveTranscriptsArgs (args : Value) : bool :=
  (typeof args =? "object")
  && negb (is_null args)
  && has_property args "callIds"
  && isArray (get args "callIds")
  && match get args "callIds" with
     | Arr callIds => every_string callIds
     | _ => false
     end.

Definition string_array_or_falsy (v : Value) : bool :=
  negb (truthy v)
  || (isArray v && match v with Arr l => every_string l | _ => false end).

Definition string_or_falsy (v : Value) : bool :=
  negb (truthy v) || (typeof v =? "string").

Definition isGongRetrieveCallDetailsArgs (args : Value) : bool :=
  if negb (typeof args =? "object") || is_null args then false
  else
    let a := args in
    string_array_or_falsy (get a "callIds")
    && string_or_falsy (get a "fromDateTime")
    && string_or_falsy (get a "toDateTime")
    && string_array_or_falsy (get a "primaryUserIds")
    && string_or_falsy (get a "context")
    && string_or_falsy (get a "cursor").

(** *** Tool handlers *)

Record TextContent : Type := { type : string; text : Value }.
Record CallToolResult : Type := { content : list TextContent; isError : bool }.
Record CallToolRequest : Type := { name : string; arguments : Value }.

Definition ListToolsRequestHandler : list Tool :=
  [ LIST_CALLS_TOOL; RETRIEVE_TRANSCRIPTS_TOOL; RETRIEVE_CALL_DETAILS_TOOL ].

Definition text_result (t : Value) (error : bool) : CallToolResult :=
  {| content := [ {| type := "text"; text := t |} ]; isError := error |}.

(** The body of the [try] block. *)
Definition dispatch (request : CallToolRequest) : M CallToolResult :=
  let name := name request in
  let args := arguments request in
  if negb (truthy args) then throw (ErrorObj "No arguments provided")
  else if name =? "list_calls" then
    if negb (isGongListCallsArgs args)
    then throw (ErrorObj "Invalid arguments for list_calls")
    else
      response <- listCalls gongClient (get args "fromDateTime") (get args "toDateTime") ;;
      ret (text_result (JSON_stringify_indent2 response) false)
  else if name =? "retrieve_transcripts" then
    if negb (isGongRetrieveTranscriptsArgs args)
    then throw (ErrorObj "Invalid arguments for retrieve_transcripts")
    else
      response <- retrieveTranscripts gongClient (get args "callIds") ;;
      ret (text_result (JSON_stringify_indent2 response) false)
  else if name =? "retrieve_call_details" then
    if negb (isGongRetrieveCallDetailsArgs args)
    then throw (ErrorObj "Invalid arguments for retrieve_call_details")
    else
      response <- retrieveCallDetails gongClient args ;;
      ret (text_result (JSON_stringify_indent2 response) false)
  else ret (text_result (Str ("Unknown tool: " ++ name)) true).

(** [error instanceof Error ? error.message : String(error)] *)
Definition error_message (error : Exn) : string :=
  match error with
  | ErrorObj message => message
  | Thrown v => ToString v
  end.

Definition CallToolRequestHandler (request : CallToolRequest) : M CallToolResult :=
  try_catch (dispatch request)
    (fun error => ret (text_result (Str ("Error: " ++ error_message error)) true)).

End Host.

End Gong.

(** ** Definitions for the statements

    What the properties below speak of: the signature and the request
    configuration as functions of the inputs, the filter and body of a
    call-details request, the wording of the specification where a property
    compares the program with it, and a concrete host for runs. *)

Import Js Platform Gong.

(** The signature as a function of the client and the four arguments. *)
Definition signature_of (this : GongClient)
    (method path timestamp : string) (payload : Value) : string :=
  base64_encode
    (hmac_sha256 (TextEncoder_encode (accessSecret this))
                 (TextEncoder_encode (stringToSign method path timestamp payload))).

(** The configuration [request] hands to [axios]. *)
Definition config_of (now : string) (this : GongClient) (method path : string)
    (params data : Value) : AxiosRequestConfig :=
  {| method := method;
     url := GONG_API_URL ++ path;
     params := params;
     data := data;
     headers :=
       [ ("Content-Type", "application/json");
         ("Authorization",
          "Basic " ++ Buffer_base64 (accessKey this ++ ":" ++ accessSecret this));
         ("X-Gong-AccessKey", accessKey this);
         ("X-Gong-Timestamp", now);
         ("X-Gong-Signature", signature_of this method path now (logical_or data params)) ] |}.

(** What the caller of [axios] gets back from the transport. *)
Definition answer (transport : Log -> AxiosRequestConfig -> Completion AxiosResponse)
    (log : Log) (config : AxiosRequestConfig) : Completion Value :=
  match transport log config with
  | Normal response => Normal (response_data response)
  | Throw e => Throw e
  end.

Definition selected (args : Value) (k : string) : list (string * Value) :=
  if truthy (get args k) then [(k, get args k)] else [].

(** The filter object of a call-details request. *)
Definition filter_of (args : Value) : Value :=
  Obj (selected args "callIds" ++ selected args "fromDateTime"
         ++ selected args "toDateTime" ++ selected args "primaryUserIds"
         ++ selected args "cursor")%list.

(** The body of a call-details request. *)
Definition body_of (args : Value) : Value :=
  Obj [ ("filter", filter_of args);
        ("contentSelector",
         Obj [ ("context", logical_or (get args "context") (Str "Extended")) ]) ].

(** No selector of the arguments is truthy. *)
Definition no_selector (args : Value) : bool :=
  negb (truthy (get args "callIds")) && negb (truthy (get args "fromDateTime"))
  && negb (truthy (get args "toDateTime")) && negb (truthy (get args "primaryUserIds")).

Definition nullish (v : Value) : bool :=
  match v with Undefined | Null => true | _ => false end.

(** The selectors of the call-details business rule. *)
Definition selector_fields : list string :=
  [ "callIds"; "fromDateTime"; "toDateTime"; "primaryUserIds" ].

(** The field names the call-details method copies into the filter. *)
Definition filter_fields : list string :=
  [ "callIds"; "fromDateTime"; "toDateTime"; "primaryUserIds"; "cursor" ].

Ltac each_field H :=
  simpl in H;
  repeat match type of H with
         | _ \/ _ => destruct H as [H|H]
         | False => contradiction
         end;
  subst.

Ltac split_truthy args :=
  destruct (truthy (get args "callIds")) eqn:?,
           (truthy (get args "fromDateTime")) eqn:?,
           (truthy (get args "toDateTime")) eqn:?,
           (truthy (get args "primaryUserIds")) eqn:?,
           (truthy (get args "cursor")) eqn:?.

Definition demo_now : string := "2024-03-01T00:00:00.000Z".

Definition demo_transport : Log -> AxiosRequestConfig -> Completion AxiosResponse :=
  fun _ _ => Normal {| response_data := Obj [ ("calls", Arr []) ]; status := 200 |}.

Definition demo_client : GongClient := {| accessKey := "key"; accessSecret := "secret" |}.

(** The mocked transport of the specification's end-to-end scenario: one
    call-details record for the expected POST, a rejection otherwise. *)
Definition scenario_body : Value :=
  Obj [ ("filter", Obj [ ("callIds", Arr [ Str "123" ]) ]);
        ("contentSelector", Obj [ ("context", Str "Extended") ]) ].

Definition scenario_response : Value :=
  Obj [ ("calls",
         Arr [ Obj [ ("id", Str "123");
                     ("metaData", Obj [ ("title", Str "T") ]) ] ]) ].

Definition scenario_transport : Log -> AxiosRequestConfig -> Completion AxiosResponse :=
  fun _ config =>
    if (method config =? "POST")
       && (url config =? "https://api.gong.io/v2/calls/extensive")
       && (ToString (JSON_stringify (data config))
           =? ToString (JSON_stringify scenario_body))
    then Normal {| response_data := scenario_response; status := 200 |}
    else Throw (ErrorObj "Request failed with status code 404").

(** The call-details invocation as the specification's sentences on the
    context level read: some selector is present among the arguments. *)
Definition selector_present_in (args : Value) : bool :=
  has_property args "callIds" || has_property args "fromDateTime"
  || has_property args "toDateTime" || has_property args "primaryUserIds".

(** The [contentSelector.context] values of the requests a run issued. *)
Definition transmitted_contexts (run : Completion Value * Log) : list Value :=
  map (fun config => get (get (data config) "contentSelector") "context") (snd run).

(** The [filter] values of the requests a run issued, at one field. *)
Definition transmitted_filter_field (k : string) (run : Completion Value * Log)
  : list Value :=
  map (fun config => get (get (data config) "filter") k) (snd run).

Definition is_string (v : Value) : Prop := exists s, v = Str s.

(** The validator as the specification words it: a non-null object that
    contains a [callIds] field that is an array of strings. *)
Definition spec_retrieve_transcripts_args (v : Value) : Prop :=
  (typeof v = "object" /\ v <> Null)
  /\ has_property v "callIds" = true
  /\ exists ids, get v "callIds" = Arr ids /\ Forall is_string ids.

(** The catalog the router advertises. *)
Definition catalog : list string := map tool_name ListToolsRequestHandler.

Definition demo_handler : CallToolRequest -> M CallToolResult :=
  CallToolRequestHandler demo_now demo_transport "key" "secret".

(** The JSON text of a value that has one. *)
Definition json_text (v : Value) : string :=
  match serialize 0 0 v with
  | Some t => t
  | None => ""
  end.

(** The payload segment with every falsy payload taken for an absent one. *)
Definition falsy_as_absent_payload_text (payload : Value) : string :=
  match payload with
  | Undefined | Null | Bool false | Num 0 | Str EmptyString => ""
  | _ => json_text payload
  end.

(** The signature as the specification words it, for a given reading of the
    payload segment: the padded base64 text of the HMAC-SHA-256, keyed with
    the secret, of method, path, timestamp and payload segment separated by
    single newlines. *)
Definition spec_signature (payload_text : Value -> string)
    (secret method path timestamp : string) (payload : Value) : string :=
  base64_encode
    (hmac_sha256
       (TextEncoder_encode secret)
       (TextEncoder_encode
          (method ++ newline ++ path ++ newline ++ timestamp ++ newline
             ++ payload_text payload))).

Definition newline_char : ascii := ascii_of_N 10.

(** No character of the string is a newline. *)
Fixpoint no_newline (s : string) : bool :=
  match s with
  | EmptyString => true
  | String c rest => negb (Ascii.eqb c newline_char) && no_newline rest
  end.

Definition NUL : string := String (ascii_of_N 0) EmptyString.

(** *** Definitions for the properties of the remaining code *)

(** The value of a header in a request configuration. *)
Fixpoint header_lookup (name : string) (l : list (string * string)) : option string :=
  match l with
  | [] => None
  | (n, v) :: rest => if n =? name then Some v else header_lookup name rest
  end.

Definition header (config : AxiosRequestConfig) (name : string) : option string :=
  header_lookup name (headers config).

(** The envelope the handler makes of the outcome of a request: the
    response serialised with indentation, or the message of the rejection. *)
Definition envelope_of (outcome : Completion AxiosResponse) : CallToolResult :=
  match outcome with
  | Normal response =>
      text_result (JSON_stringify_indent2 (response_data response)) false
  | Throw e => text_result (Str ("Error: " ++ error_message e)) true
  end.

(** An array whose elements are all strings; a string that is not empty. *)
Definition string_array (v : Value) : bool :=
  match v with Arr l => every_string l | _ => false end.

Definition nonempty_string (v : Value) : bool :=
  match v with Str s => negb (s =? "") | _ => false end.

(** Method and address of the three endpoints the client calls. *)
Definition endpoints : list (string * string) :=
  [ ("GET", "https://api.gong.io/v2/calls");
    ("POST", "https://api.gong.io/v2/calls/transcript");
    ("POST", "https://api.gong.io/v2/calls/extensive") ].

(** The six fields the call-details method reads. *)
Definition call_details_fields : list string :=
  [ "callIds"; "fromDateTime"; "toDateTime"; "primaryUserIds"; "cursor"; "context" ].

(** The shape the list-calls guard accepts, in words: a non-null object
    whose time bounds, where present, are strings. *)
Definition list_calls_shape (v : Value) : Prop :=
  (typeof v = "object" /\ v <> Null)
  /\ (has_property v "fromDateTime" = true -> is_string (get v "fromDateTime"))
  /\ (has_property v "toDateTime" = true -> is_string (get v "toDateTime")).

(** The shape the call-details guard accepts, in words: a non-null object
    whose truthy fields have the expected type. *)
Definition call_details_shape (v : Value) : Prop :=
  (typeof v = "object" /\ v <> Null)
  /\ (forall k, In k [ "callIds"; "primaryUserIds" ] ->
        truthy (get v k) = true -> string_array (get v k) = true)
  /\ (forall k, In k [ "fromDateTime"; "toDateTime"; "context"; "cursor" ] ->
        truthy (get v k) = true -> is_string (get v k)).

(** The body of a transcripts request for the given call identifiers. *)
Definition transcripts_body (callIds : Value) : Value :=
  Obj [ ("filter",
         Obj [ ("callIds", callIds);
               ("includeEntities", Bool true);
               ("includeInteractionsSummary", Bool true);
               ("includeTrackers", Bool true) ]) ].

(** The payload the dispatcher hands to the signature generator: its body
    or its query parameters, an object, or nothing. *)
Definition payload_value (payload : option (list (string * Value))) : Value :=
  match payload with
  | Some fields => Obj fields
  | None => Undefined
  end.

(** The payload segment of an optional payload as the specification words
    it: its JSON serialization, the empty string when it is absent. *)
Definition optional_payload_text (payload : option (list (string * Value))) : string :=
  match payload with
  | Some fields => json_text (Obj fields)
  | None => ""
  end.

(** A character of the base64 alphabet; a string of such characters. *)
Definition base64_char (c : ascii) : bool :=
  existsb (Ascii.eqb c) (list_ascii_of_string base64_alphabet).

Definition all_base64 (s : string) : bool :=
  forallb base64_char (list_ascii_of_string s).

(** ** Properties *)

(** *** The platform functions *)

Lemma byte_code_unit (b : byte) : (Byte.to_N b <=? 255)%N = true.
Proof. destruct b; reflexivity. Qed.

Lemma byte_of_code_unit (b : byte) : byte_of_Z (Z.of_N (Byte.to_N b)) = b.
Proof. destruct b; reflexivity. Qed.

(** The model of the platform's hash on the test vectors of FIPS 180-4
    ("abc") and RFC 4231 (test case 2). *)
Example sha256_abc :
  base64_encode (sha256 (TextEncoder_encode "abc"))
  = "ungWv48Bz+pBQUDeXa4iI7ADYaOWF3qctBD/YfIAFa0=".
Proof. vm_compute. reflexivity. Qed.

Example hmac_sha256_rfc4231 :
  base64_encode
    (hmac_sha256 (TextEncoder_encode "Jefe")
                 (TextEncoder_encode "what do ya want for nothing?"))
  = "W9zBRr9gdU5qBCQmCJV1x1oAPwidJzmDnexYuWTsOEM=".
Proof. vm_compute. reflexivity. Qed.

(** [btoa(String.fromCharCode(...bytes))] never throws and is the padded
    base64 text of the bytes. *)
Lemma btoa_fromCharCode (bytes : list byte) :
  btoa (String_fromCharCode bytes) = Normal (base64_encode bytes).
Proof.
  unfold btoa, String_fromCharCode.
  replace (forallb _ _) with true.
  - f_equal. f_equal. rewrite map_map.
    induction bytes as [|b rest IH]; simpl; [reflexivity|].
    now rewrite byte_of_code_unit, IH.
  - symmetry. apply forallb_forall. intros c Hc.
    apply in_map_iff in Hc. destruct Hc as [b [<- _]]. apply byte_code_unit.
Qed.

Lemma generateSignature_normal this method path timestamp payload :
  generateSignature this method path timestamp payload
  = Normal (signature_of this method path timestamp payload).
Proof. unfold generateSignature. apply btoa_fromCharCode. Qed.

(** *** The dispatcher *)

Section HostFacts.

Variable now : string.
Variable transport : Log -> AxiosRequestConfig -> Completion AxiosResponse.

(** Every [request] issues exactly one network call, and its outcome is the
    transport's. *)
Lemma request_run this method path params data log :
  request now transport this method path params data log
  = (answer transport log (config_of now this method path params data),
     (log ++ [config_of now this method path params data])%list).
Proof.
  unfold request, bind, lift, axios, ret, answer.
  rewrite generateSignature_normal.
  fold (config_of now this method path params data).
  destruct (transport log _); reflexivity.
Qed.

(** *** The call-details method *)

Lemma prop_get (v : Value) (k : string) :
  nullish v = false -> prop v k = Normal (get v k).
Proof. destruct v; simpl; intros H; try discriminate; reflexivity. Qed.

Lemma retrieveCallDetails_run this args log :
  nullish args = false ->
  retrieveCallDetails now transport this args log
  = if no_selector args
    then (Throw (ErrorObj "At least one filter parameter is required"), log)
    else (answer transport log
            (config_of now this "POST" "/calls/extensive" Undefined (body_of args)),
          (log ++ [config_of now this "POST" "/calls/extensive" Undefined
                     (body_of args)])%list).
Proof.
  intros Hargs. unfold retrieveCallDetails, bind, lift.
  rewrite !(prop_get _ _ Hargs). fold (no_selector args).
  destruct (no_selector args); [reflexivity|].
  rewrite request_run. unfold body_of, filter_of, selected.
  destruct (truthy (get args "callIds")), (truthy (get args "fromDateTime")),
    (truthy (get args "toDateTime")), (truthy (get args "primaryUserIds")),
    (truthy (get args "cursor")); reflexivity.
Qed.

End HostFacts.

(** *** Objects as association lists *)

Lemma assoc_remove_same k l : assoc k (assoc_remove k l) = None.
Proof.
  induction l as [|[k' v] rest IH]; simpl; [reflexivity|].
  destruct (String.eqb_spec k' k) as [->|Hne]; [exact IH|].
  simpl. destruct (String.eqb_spec k' k); [contradiction|exact IH].
Qed.

Lemma assoc_remove_other k k' l :
  k' <> k -> assoc k' (assoc_remove k l) = assoc k' l.
Proof.
  intros Hne. induction l as [|[k0 v] rest IH]; simpl; [reflexivity|].
  destruct (String.eqb_spec k0 k) as [->|Hk].
  - destruct (String.eqb_spec k k'); [congruence|exact IH].
  - simpl. destruct (String.eqb_spec k0 k'); [reflexivity|exact IH].
Qed.

Lemma absent_get (v : Value) (k : string) :
  has_property v k = false -> get v k = Undefined.
Proof.
  destruct v; simpl; try reflexivity.
  - intros H. apply orb_false_iff in H. destruct H as [-> H].
    destruct (index_lookup k 0 elements); [discriminate|reflexivity].
  - destruct (assoc k properties); [discriminate|reflexivity].
Qed.

Lemma filter_get args k :
  In k filter_fields ->
  get (filter_of args) k = if truthy (get args k) then get args k else Undefined.
Proof.
  intros Hk. unfold filter_of, selected. each_field Hk; split_truthy args; reflexivity.
Qed.

Lemma filter_has args k :
  In k filter_fields -> has_property (filter_of args) k = truthy (get args k).
Proof.
  intros Hk. unfold filter_of, selected. each_field Hk; split_truthy args; reflexivity.
Qed.

(** *** The call-details business rule *)

(** C1: an invocation of the call-details method whose argument object
    contains none of [callIds], [fromDateTime], [toDateTime] and
    [primaryUserIds] fails with the message "At least one filter parameter is
    required", and the log of network calls is left as it was. *)
Theorem call_details_requires_a_filter
    now transport this (args : Value) (log : Log) :
  typeof args = "object" -> is_null args = false ->
  has_property args "callIds" = false ->
  has_property args "fromDateTime" = false ->
  has_property args "toDateTime" = false ->
  has_property args "primaryUserIds" = false ->
  retrieveCallDetails now transport this args log
  = (Throw (ErrorObj "At least one filter parameter is required"), log).
Proof.
  intros Hobj Hnull H1 H2 H3 H4.
  rewrite retrieveCallDetails_run.
  - unfold no_selector.
    now rewrite (absent_get _ _ H1), (absent_get _ _ H2),
      (absent_get _ _ H3), (absent_get _ _ H4).
  - destruct args; simpl in *; try discriminate; reflexivity.
Qed.

(** The argument object whose only field is [cursor]. *)
Lemma call_details_requires_a_filter_cursor_only :
  retrieveCallDetails demo_now demo_transport demo_client
    (Obj [ ("cursor", Str "abc") ]) []
  = (Throw (ErrorObj "At least one filter parameter is required"), []).
Proof. apply call_details_requires_a_filter; reflexivity. Defined.

(** The empty argument object, for every host and every cursor value. *)
Example call_details_empty_arguments now transport this log :
  retrieveCallDetails now transport this (Obj []) log
  = (Throw (ErrorObj "At least one filter parameter is required"), log)
  /\ forall cursor,
       retrieveCallDetails now transport this (Obj [ ("cursor", cursor) ]) log
       = (Throw (ErrorObj "At least one filter parameter is required"), log).
Proof.
  split; [|intros cursor]; rewrite retrieveCallDetails_run; reflexivity.
Qed.

Lemma selector_present args k :
  In k selector_fields ->
  truthy (get args k) = true -> no_selector args = false.
Proof.
  intros Hk Ht. unfold no_selector. each_field Hk; rewrite Ht; simpl;
    rewrite ?andb_false_r; reflexivity.
Qed.

Lemma truthy_not_nullish args k : truthy (get args k) = true -> nullish args = false.
Proof. destruct args; simpl; try discriminate; reflexivity. Qed.

(** C9: with [callIds] the empty array the method does not raise its
    missing-filter error: the empty array counts as a selector, one request is
    issued to the call-details endpoint, the outcome is the transport's, and
    the transmitted [filter.callIds] is the empty array. *)
Theorem empty_callIds_counts_as_selector
    now transport this (args : Value) (log : Log) :
  get args "callIds" = Arr [] ->
  exists config,
    retrieveCallDetails now transport this args log
    = (answer transport log config, (log ++ [config])%list)
    /\ method config = "POST"
    /\ url config = "https://api.gong.io/v2/calls/extensive"
    /\ get (get (data config) "filter") "callIds" = Arr [].
Proof.
  intros Hids.
  assert (Ht : truthy (get args "callIds") = true) by now rewrite Hids.
  exists (config_of now this "POST" "/calls/extensive" Undefined (body_of args)).
  rewrite retrieveCallDetails_run by exact (truthy_not_nullish _ _ Ht).
  rewrite (selector_present args "callIds") by (simpl; auto).
  repeat split.
  change (get (filter_of args) "callIds" = Arr []).
  rewrite filter_get by (simpl; auto). now rewrite Ht.
Qed.

(** The invocation of the claim: [callIds] empty and nothing else. *)
Lemma empty_callIds_counts_as_selector_run :
  exists config,
    retrieveCallDetails demo_now demo_transport demo_client
      (Obj [ ("callIds", Arr []) ]) []
    = (answer demo_transport [] config, [config])
    /\ method config = "POST"
    /\ url config = "https://api.gong.io/v2/calls/extensive"
    /\ get (get (data config) "filter") "callIds" = Arr [].
Proof.
  exact (empty_callIds_counts_as_selector demo_now demo_transport demo_client
           (Obj [ ("callIds", Arr []) ]) [] eq_refl).
Defined.

Example empty_callIds_body :
  map data (snd (retrieveCallDetails demo_now demo_transport demo_client
                   (Obj [ ("callIds", Arr []) ]) []))
  = [ Obj [ ("filter", Obj [ ("callIds", Arr []) ]);
            ("contentSelector", Obj [ ("context", Str "Extended") ]) ] ].
Proof. vm_compute. reflexivity. Qed.

(** C4, refuted as stated: a caller who supplies the empty string as
    [context], next to a selector, gets "Extended" transmitted and not the
    supplied string. *)
Lemma supplied_empty_context_is_replaced :
  let args := Obj [ ("callIds", Arr [ Str "X" ]); ("context", Str "") ] in
  selector_present_in args = true
  /\ get args "context" = Str ""
  /\ transmitted_contexts
       (retrieveCallDetails demo_now demo_transport demo_client args [])
     = [ Str "Extended" ]
  /\ Str "Extended" <> get args "context".
Proof. vm_compute. repeat split. discriminate. Qed.

(** C4, amended: when some selector is truthy, one request is issued; its
    [contentSelector.context] is "Extended" when the arguments have no
    [context] field or an empty-string one, and is the supplied context when
    that is a non-empty string. *)
Theorem call_details_context_default
    now transport this (args : Value) (log : Log) (selector : string) :
  In selector selector_fields -> truthy (get args selector) = true ->
  exists config,
    retrieveCallDetails now transport this args log
    = (answer transport log config, (log ++ [config])%list)
    /\ (has_property args "context" = false ->
        get (get (data config) "contentSelector") "context" = Str "Extended")
    /\ (get args "context" = Str "" ->
        get (get (data config) "contentSelector") "context" = Str "Extended")
    /\ (forall c, c <> "" -> get args "context" = Str c ->
        get (get (data config) "contentSelector") "context" = Str c).
Proof.
  intros Hin Hsel.
  exists (config_of now this "POST" "/calls/extensive" Undefined (body_of args)).
  rewrite retrieveCallDetails_run by exact (truthy_not_nullish _ _ Hsel).
  rewrite (selector_present _ _ Hin Hsel).
  split; [reflexivity|].
  change (get (get (data (config_of now this "POST" "/calls/extensive"
                            Undefined (body_of args))) "contentSelector") "context")
    with (logical_or (get args "context") (Str "Extended")).
  repeat split.
  - intros Habs. now rewrite (absent_get _ _ Habs).
  - intros ->. reflexivity.
  - intros c Hc ->. unfold logical_or. simpl.
    destruct (String.eqb_spec c ""); [contradiction|reflexivity].
Qed.

Lemma call_details_context_default_run :
  exists config,
    retrieveCallDetails demo_now demo_transport demo_client
      (Obj [ ("callIds", Arr [ Str "X" ]) ]) []
    = (answer demo_transport [] config, [config])
    /\ (has_property (Obj [ ("callIds", Arr [ Str "X" ]) ]) "context" = false ->
        get (get (data config) "contentSelector") "context" = Str "Extended")
    /\ (get (Obj [ ("callIds", Arr [ Str "X" ]) ]) "context" = Str "" ->
        get (get (data config) "contentSelector") "context" = Str "Extended")
    /\ (forall c, c <> "" ->
        get (Obj [ ("callIds", Arr [ Str "X" ]) ]) "context" = Str c ->
        get (get (data config) "contentSelector") "context" = Str c).
Proof.
  apply (call_details_context_default demo_now demo_transport demo_client
           (Obj [ ("callIds", Arr [ Str "X" ]) ]) [] "callIds").
  - simpl. auto.
  - reflexivity.
Defined.

(** C8, refuted as stated: a [cursor] supplied as the empty string, next to a
    selector, is not copied: the transmitted filter has no [cursor]. *)
Lemma supplied_empty_cursor_is_dropped :
  let args := Obj [ ("callIds", Arr [ Str "X" ]); ("cursor", Str "") ] in
  has_property args "cursor" = true
  /\ get args "cursor" = Str ""
  /\ transmitted_filter_field "cursor"
       (retrieveCallDetails demo_now demo_transport demo_client args [])
     = [ Undefined ]
  /\ Undefined <> get args "cursor".
Proof. vm_compute. repeat split. discriminate. Qed.

(** C8, amended: when some selector is truthy, one request is issued, and
    each of [callIds], [fromDateTime], [toDateTime], [primaryUserIds] and
    [cursor] whose value is truthy (an array, a non-empty string) is in the
    transmitted filter with that very value, the others being left out of it;
    a non-empty [cursor] string is transmitted as [filter.cursor]. *)
Theorem call_details_filter_copies
    now transport this (args : Value) (log : Log) (selector : string) :
  In selector selector_fields -> truthy (get args selector) = true ->
  exists config,
    retrieveCallDetails now transport this args log
    = (answer transport log config, (log ++ [config])%list)
    /\ (forall k, In k filter_fields ->
          (truthy (get args k) = true ->
           get (get (data config) "filter") k = get args k)
          /\ (truthy (get args k) = false ->
              has_property (get (data config) "filter") k = false))
    /\ (forall c, c <> "" -> get args "cursor" = Str c ->
          get (get (data config) "filter") "cursor" = Str c).
Proof.
  intros Hin Hsel.
  exists (config_of now this "POST" "/calls/extensive" Undefined (body_of args)).
  rewrite retrieveCallDetails_run by exact (truthy_not_nullish _ _ Hsel).
  rewrite (selector_present _ _ Hin Hsel).
  split; [reflexivity|].
  change (get (data (config_of now this "POST" "/calls/extensive"
                       Undefined (body_of args))) "filter")
    with (filter_of args).
  split.
  - intros k Hk. split; intros Ht.
    + rewrite filter_get by exact Hk. now rewrite Ht.
    + rewrite filter_has by exact Hk. exact Ht.
  - intros c Hc Hcur. rewrite filter_get by (simpl; auto 6). rewrite Hcur.
    simpl. destruct (String.eqb_spec c ""); [contradiction|reflexivity].
Qed.

Lemma call_details_filter_copies_run :
  let args := Obj [ ("fromDateTime", Str "2024-03-01T00:00:00Z");
                    ("cursor", Str "abc") ] in
  exists config,
    retrieveCallDetails demo_now demo_transport demo_client args []
    = (answer demo_transport [] config, [config])
    /\ (forall k, In k filter_fields ->
          (truthy (get args k) = true ->
           get (get (data config) "filter") k = get args k)
          /\ (truthy (get args k) = false ->
              has_property (get (data config) "filter") k = false))
    /\ (forall c, c <> "" -> get args "cursor" = Str c ->
          get (get (data config) "filter") "cursor" = Str c).
Proof.
  apply (call_details_filter_copies demo_now demo_transport demo_client
           (Obj [ ("fromDateTime", Str "2024-03-01T00:00:00Z");
                  ("cursor", Str "abc") ]) [] "fromDateTime").
  - simpl. auto.
  - reflexivity.
Defined.

(** Pagination continuation, on the concrete invocation of the
    specification. *)
Example pagination_cursor_is_transmitted :
  transmitted_filter_field "cursor"
    (retrieveCallDetails demo_now demo_transport demo_client
       (Obj [ ("fromDateTime", Str "2024-03-01T00:00:00Z");
              ("cursor", Str "abc") ]) [])
  = [ Str "abc" ].
Proof. vm_compute. reflexivity. Qed.

(** Removing a field that holds the empty string changes nothing the
    call-details method reads. *)
Lemma get_remove_empty fields k k' :
  get (Obj fields) k = Str "" ->
  truthy (get (Obj (assoc_remove k fields)) k') = truthy (get (Obj fields) k')
  /\ (truthy (get (Obj fields) k') = true ->
      get (Obj (assoc_remove k fields)) k' = get (Obj fields) k').
Proof.
  intros Hk. simpl in *. destruct (String.eqb_spec k' k) as [->|Hne].
  - rewrite assoc_remove_same, Hk. split; [reflexivity|discriminate].
  - rewrite assoc_remove_other by exact Hne. split; [reflexivity|reflexivity].
Qed.

Lemma selected_remove_empty fields k k' :
  get (Obj fields) k = Str "" ->
  selected (Obj (assoc_remove k fields)) k' = selected (Obj fields) k'.
Proof.
  intros Hk. unfold selected.
  destruct (get_remove_empty fields k k' Hk) as [Ht Hv]. rewrite Ht.
  destruct (truthy (get (Obj fields) k')); [|reflexivity].
  now rewrite Hv.
Qed.

Lemma or_remove_empty fields k k' d :
  get (Obj fields) k = Str "" ->
  logical_or (get (Obj (assoc_remove k fields)) k') d
  = logical_or (get (Obj fields) k') d.
Proof.
  intros Hk. unfold logical_or.
  destruct (get_remove_empty fields k k' Hk) as [Ht Hv]. rewrite Ht.
  destruct (truthy (get (Obj fields) k')); [|reflexivity].
  now rewrite Hv.
Qed.

Lemma retrieveCallDetails_remove_empty now transport this fields k log :
  get (Obj fields) k = Str "" ->
  retrieveCallDetails now transport this (Obj fields) log
  = retrieveCallDetails now transport this (Obj (assoc_remove k fields)) log.
Proof.
  intros Hk. rewrite !retrieveCallDetails_run by reflexivity.
  unfold no_selector, body_of, filter_of.
  rewrite !(selected_remove_empty fields k _ Hk), (or_remove_empty fields k _ _ Hk).
  now rewrite !(proj1 (get_remove_empty fields k _ Hk)).
Qed.

(** C10: a field supplied as the empty string is treated as absent.  The
    method runs on the arguments as on the arguments without that field.
    When some selector is truthy, one request is issued, in whose filter an
    empty [fromDateTime], [toDateTime] or [cursor] does not appear, and whose
    context, for an empty [context], is "Extended".  An empty [fromDateTime]
    or [toDateTime] is no selector: with no other selector truthy the
    missing-filter error is raised and no request is issued. *)
Theorem empty_string_field_is_absent
    now transport this (fields : list (string * Value)) (k : string) (log : Log) :
  get (Obj fields) k = Str "" ->
  retrieveCallDetails now transport this (Obj fields) log
  = retrieveCallDetails now transport this (Obj (assoc_remove k fields)) log
  /\ (forall selector,
        In selector selector_fields ->
        truthy (get (Obj fields) selector) = true ->
        exists config,
          retrieveCallDetails now transport this (Obj fields) log
          = (answer transport log config, (log ++ [config])%list)
          /\ (In k [ "fromDateTime"; "toDateTime"; "cursor" ] ->
              has_property (get (data config) "filter") k = false
              /\ get (get (data config) "filter") k = Undefined)
          /\ (k = "context" ->
              get (get (data config) "contentSelector") "context" = Str "Extended"))
  /\ (In k [ "fromDateTime"; "toDateTime" ] ->
      (forall k', In k' selector_fields ->
                  k' <> k -> truthy (get (Obj fields) k') = false) ->
      retrieveCallDetails now transport this (Obj fields) log
      = (Throw (ErrorObj "At least one filter parameter is required"), log)).
Proof.
  intros Hk. split; [exact (retrieveCallDetails_remove_empty _ _ _ _ _ _ Hk)|].
  rewrite retrieveCallDetails_run by reflexivity.
  split.
  - intros selector Hin Hsel.
    exists (config_of now this "POST" "/calls/extensive" Undefined
              (body_of (Obj fields))).
    rewrite (selector_present _ _ Hin Hsel).
    split; [reflexivity|]. split.
    + intros Hfield.
      change (has_property (filter_of (Obj fields)) k = false
              /\ get (filter_of (Obj fields)) k = Undefined).
      assert (Hf : In k filter_fields)
        by (unfold filter_fields; each_field Hfield; simpl; auto 6).
      rewrite (filter_has _ _ Hf), (filter_get _ _ Hf), Hk. split; reflexivity.
    + intros ->.
      change (logical_or (get (Obj fields) "context") (Str "Extended")
              = Str "Extended").
      now rewrite Hk.
  - intros Hin Hothers.
    replace (no_selector (Obj fields)) with true; [reflexivity|].
    symmetry. unfold no_selector.
    each_field Hin; rewrite Hk;
      repeat match goal with
             | |- context [truthy (get (Obj fields) ?f)] =>
                 rewrite (Hothers f) by (simpl; auto; discriminate)
             end; reflexivity.
Qed.

(** An empty [context] next to a selector: the request is issued and its
    context is "Extended". *)
Lemma empty_string_field_is_absent_run :
  exists config,
    retrieveCallDetails demo_now demo_transport demo_client
      (Obj [ ("callIds", Arr [ Str "X" ]); ("context", Str "") ]) []
    = (answer demo_transport [] config, [config])
    /\ get (get (data config) "contentSelector") "context" = Str "Extended".
Proof.
  destruct (proj1 (proj2 (empty_string_field_is_absent demo_now demo_transport
                            demo_client
                            [ ("callIds", Arr [ Str "X" ]); ("context", Str "") ]
                            "context" [] eq_refl))
              "callIds" (or_introl eq_refl) eq_refl)
    as [config [Hrun [_ Hcontext]]].
  exists config. split; [exact Hrun|exact (Hcontext eq_refl)].
Defined.

(** The same on concrete invocations: an empty time bound alone is no
    selector, and empty fields leave the request body as if they were absent. *)
Example empty_time_bound_alone_fails :
  retrieveCallDetails demo_now demo_transport demo_client
    (Obj [ ("fromDateTime", Str ""); ("toDateTime", Str "") ]) []
  = (Throw (ErrorObj "At least one filter parameter is required"), []).
Proof. vm_compute. reflexivity. Qed.

Example empty_fields_body :
  map data
    (snd (retrieveCallDetails demo_now demo_transport demo_client
            (Obj [ ("callIds", Arr [ Str "X" ]); ("fromDateTime", Str "");
                   ("toDateTime", Str ""); ("cursor", Str "");
                   ("context", Str "") ]) []))
  = [ Obj [ ("filter", Obj [ ("callIds", Arr [ Str "X" ]) ]);
            ("contentSelector", Obj [ ("context", Str "Extended") ]) ] ].
Proof. vm_compute. reflexivity. Qed.

(** *** The retrieve-transcripts validator *)

Lemma typeof_string (v : Value) : (typeof v =? "string") = true <-> is_string v.
Proof.
  split.
  - destruct v; simpl; try discriminate. intros _. now exists s.
  - intros [s ->]. reflexivity.
Qed.

Lemma every_string_spec (l : list Value) :
  every_string l = true <-> Forall is_string l.
Proof.
  unfold every_string. rewrite forallb_forall, Forall_forall.
  split; intros H x Hx; apply typeof_string, H, Hx.
Qed.

(** The decimal form of an index is never a field name of the program. *)
Lemma index_is_not_callIds (i : nat) : (nat_to_string i =? "callIds") = false.
Proof.
  unfold nat_to_string, Z_to_string.
  destruct (Z.of_nat i) as [|p|p]; simpl; [reflexivity| |].
  - destruct (Pos.to_uint p); reflexivity.
  - destruct (Pos.to_uint p); reflexivity.
Qed.

Lemma array_has_no_callIds (l : list Value) : has_property (Arr l) "callIds" = false.
Proof.
  simpl. generalize 0%nat. induction l as [|x rest IH]; intros i; simpl.
  - reflexivity.
  - rewrite index_is_not_callIds. apply IH.
Qed.

(** C7: the retrieve-transcripts validator is a total boolean function of
    the value, with no state and no failure; it answers true exactly on the
    non-null objects that contain a [callIds] field that is an array of
    strings.  It rejects the empty object and a [callIds] that is a string,
    and accepts a [callIds] holding two strings. *)
Theorem retrieve_transcripts_validator :
  (forall v : Value,
     isGongRetrieveTranscriptsArgs v = true <-> spec_retrieve_transcripts_args v)
  /\ (forall v : Value,
        isGongRetrieveTranscriptsArgs v = false <-> ~ spec_retrieve_transcripts_args v)
  /\ isGongRetrieveTranscriptsArgs (Obj []) = false
  /\ isGongRetrieveTranscriptsArgs (Obj [ ("callIds", Str "not-an-array") ]) = false
  /\ isGongRetrieveTranscriptsArgs (Obj [ ("callIds", Arr [ Str "a"; Str "b" ]) ]) = true.
Proof.
  assert (Hiff : forall v, isGongRetrieveTranscriptsArgs v = true
                           <-> spec_retrieve_transcripts_args v).
  { intros v. unfold isGongRetrieveTranscriptsArgs, spec_retrieve_transcripts_args.
    rewrite !andb_true_iff. split.
    - intros [[[[Hobj Hnull] Hin] Harr] Hall].
      repeat split.
      + now apply String.eqb_eq.
      + intros ->. discriminate.
      + exact Hin.
      + destruct (get v "callIds"); try discriminate.
        eexists. split; [reflexivity|]. now apply every_string_spec.
    - intros [[Hobj Hnull] [Hin [ids [Hget Hall]]]].
      rewrite Hget. repeat split.
      + now apply String.eqb_eq.
      + destruct v; try reflexivity. now contradiction Hnull.
      + exact Hin.
      + now apply every_string_spec. }
  split; [exact Hiff|]. split; [|repeat split].
  intros v. rewrite <- Hiff.
  destruct (isGongRetrieveTranscriptsArgs v); split; congruence.
Qed.

(** On the values of the embedding the accepted arguments are the objects
    proper: an array has no [callIds] field. *)
Lemma retrieve_transcripts_validator_shape (v : Value) :
  isGongRetrieveTranscriptsArgs v = true <->
  exists fields ids,
    v = Obj fields /\ assoc "callIds" fields = Some (Arr ids) /\ Forall is_string ids.
Proof.
  unfold isGongRetrieveTranscriptsArgs. split.
  - destruct v as [| | | | |elements|properties];
      [simpl; discriminate ..
      |rewrite array_has_no_callIds; simpl; discriminate|simpl].
    destruct (assoc "callIds" properties) as [x|] eqn:Hassoc; [|discriminate].
    destruct x; simpl; try discriminate. intros H.
    exists properties, elements.
    split; [reflexivity|]. split; [exact Hassoc|]. now apply every_string_spec.
  - intros [fields [ids [-> [Hassoc Hall]]]]. simpl. rewrite Hassoc. simpl.
    now apply every_string_spec.
Qed.

(** *** The tool router *)

Lemma prefix_app (s t : string) : String.prefix s (s ++ t) = true.
Proof.
  induction s as [|c s IH]; simpl; [destruct t; reflexivity|].
  destruct (ascii_dec c c); [exact IH|contradiction].
Qed.

Lemma prefix_refl (s : string) : String.prefix s s = true.
Proof.
  induction s as [|c s IH]; simpl; [reflexivity|].
  destruct (ascii_dec c c); [exact IH|contradiction].
Qed.

Lemma includes_prefix (n h : string) : String.prefix n h = true -> includes n h = true.
Proof. intros H. destruct h; cbn [includes]; rewrite H; reflexivity. Qed.

Lemma includes_app (n pre h : string) :
  includes n h = true -> includes n (pre ++ h) = true.
Proof.
  intros H. induction pre as [|c pre IH]; [exact H|].
  change (String c pre ++ h) with (String c (pre ++ h)). cbn [includes].
  rewrite IH. apply orb_true_r.
Qed.

Section Router.

Variable now : string.
Variable transport : Log -> AxiosRequestConfig -> Completion AxiosResponse.
Variable GONG_ACCESS_KEY GONG_ACCESS_SECRET : string.

Local Abbreviation handler :=
  (CallToolRequestHandler now transport GONG_ACCESS_KEY GONG_ACCESS_SECRET).
Local Abbreviation body := (dispatch now transport GONG_ACCESS_KEY GONG_ACCESS_SECRET).

Lemma not_in_catalog (n : string) :
  ~ In n catalog <->
  (n =? "list_calls") = false /\ (n =? "retrieve_transcripts") = false
  /\ (n =? "retrieve_call_details") = false.
Proof.
  unfold catalog. simpl. rewrite !String.eqb_neq. split.
  - intros H. repeat split; intros ->; apply H; auto.
  - intros [H1 [H2 H3]] [H|[H|[H|[]]]]; subst; congruence.
Qed.

(** The handler never lets a thrown value escape. *)
Lemma handler_returns (request : CallToolRequest) (log : Log) :
  exists result log', handler request log = (Normal result, log').
Proof.
  unfold CallToolRequestHandler, try_catch, ret.
  destruct (dispatch _ _ _ _ request log) as [[result|e] log']; eauto.
Qed.

(** Whatever the [try] block throws becomes the error envelope. *)
Lemma handler_catches (request : CallToolRequest) (log log' : Log) (e : Exn) :
  body request log = (Throw e, log') ->
  handler request log
  = (Normal (text_result (Str ("Error: " ++ error_message e)) true), log').
Proof.
  unfold CallToolRequestHandler, try_catch, ret. now intros ->.
Qed.

Lemma handler_passes (request : CallToolRequest) (log log' : Log) result :
  body request log = (Normal result, log') ->
  handler request log = (Normal result, log').
Proof.
  unfold CallToolRequestHandler, try_catch. now intros ->.
Qed.

(** A client call followed by the success envelope never yields an error
    envelope. *)
Lemma success_envelope (call : M Value) (log log' : Log) result :
  (response <- call ;; ret (text_result (JSON_stringify_indent2 response) false)) log
  = (Normal result, log') ->
  isError result = false.
Proof.
  unfold bind, ret. destruct (call log) as [[response|e] l]; intros H;
    inversion H; reflexivity.
Qed.

(** The [try] block completes with an error envelope only in the default
    branch of the switch. *)
Lemma dispatch_error_envelope (request : CallToolRequest) (log log' : Log) result :
  body request log = (Normal result, log') ->
  isError result = true ->
  truthy (arguments request) = true
  /\ ~ In (name request) catalog
  /\ result = text_result (Str ("Unknown tool: " ++ name request)) true
  /\ log' = log.
Proof.
  unfold dispatch. intros Hrun Herr.
  destruct (truthy (arguments request)); simpl in Hrun; [|discriminate].
  destruct (name request =? "list_calls") eqn:H1.
  { destruct (isGongListCallsArgs _); simpl in Hrun; [|discriminate].
    apply success_envelope in Hrun. congruence. }
  destruct (name request =? "retrieve_transcripts") eqn:H2.
  { destruct (isGongRetrieveTranscriptsArgs _); simpl in Hrun; [|discriminate].
    apply success_envelope in Hrun. congruence. }
  destruct (name request =? "retrieve_call_details") eqn:H3.
  { destruct (isGongRetrieveCallDetailsArgs _); simpl in Hrun; [|discriminate].
    apply success_envelope in Hrun. congruence. }
  unfold ret in Hrun. inversion Hrun; subst.
  repeat split. apply not_in_catalog. auto.
Qed.

Lemma dispatch_unknown_tool (request : CallToolRequest) (log : Log) :
  ~ In (name request) catalog ->
  truthy (arguments request) = true ->
  body request log
  = (Normal (text_result (Str ("Unknown tool: " ++ name request)) true), log).
Proof.
  intros Hname Hargs. apply not_in_catalog in Hname. destruct Hname as [H1 [H2 H3]].
  unfold dispatch. now rewrite Hargs, H1, H2, H3.
Qed.

End Router.

(** X11: a call-details invocation that passes the validator and has no
    truthy selector is answered with the missing-filter error envelope, and no
    request is issued. *)
Lemma call_details_tool_requires_a_filter now transport access_key access_secret
    (args : Value) (log : Log) :
  truthy args = true ->
  isGongRetrieveCallDetailsArgs args = true ->
  no_selector args = true ->
  CallToolRequestHandler now transport access_key access_secret
    {| name := "retrieve_call_details"; arguments := args |} log
  = (Normal (text_result
               (Str "Error: At least one filter parameter is required") true), log).
Proof.
  intros Hargs Hvalid Hnone.
  apply (handler_catches _ _ _ _ _ _ _
           (ErrorObj "At least one filter parameter is required")).
  unfold dispatch. simpl. rewrite Hargs, Hvalid. simpl.
  unfold bind, ret. rewrite retrieveCallDetails_run, Hnone; [reflexivity|].
  destruct args; try discriminate; reflexivity.
Qed.

(** The end-to-end scenario of the specification: the invocation with
    [callIds: ["123"]] sends the expected body and returns the response,
    serialised with indentation, in a non-error envelope. *)
Example call_details_end_to_end :
  CallToolRequestHandler demo_now scenario_transport "key" "secret"
    {| name := "retrieve_call_details";
       arguments := Obj [ ("callIds", Arr [ Str "123" ]) ] |} []
  = (Normal (text_result (JSON_stringify_indent2 scenario_response) false),
     [ config_of demo_now demo_client "POST" "/calls/extensive" Undefined
         scenario_body ]).
Proof. vm_compute. reflexivity. Qed.

(** C3, refuted as stated: the envelope for an unknown tool has the error
    flag, and its text does not begin with "Error: ", whatever the message. *)
Lemma unknown_tool_envelope_has_no_error_prefix :
  let request := {| name := "summarize_call"; arguments := Obj [] |} in
  demo_handler request []
  = (Normal {| content := [ {| type := "text";
                               text := Str "Unknown tool: summarize_call" |} ];
               isError := true |}, [])
  /\ forall message : string,
       Str "Unknown tool: summarize_call" <> Str ("Error: " ++ message).
Proof. split; [vm_compute; reflexivity|]. intros message. discriminate. Qed.

(** C3, amended: an invocation that results in an error envelope either
    threw in the handling chain, and the text is "Error: " followed by the
    message of what was thrown, or named a tool outside the catalog with
    arguments present, and the text is "Unknown tool: " followed by the
    requested name. *)
Theorem error_envelope_text now transport access_key access_secret
    (request : CallToolRequest) (log log' : Log) (result : CallToolResult) :
  CallToolRequestHandler now transport access_key access_secret request log
  = (Normal result, log') ->
  isError result = true ->
  (exists e,
     dispatch now transport access_key access_secret request log = (Throw e, log')
     /\ result = text_result (Str ("Error: " ++ error_message e)) true)
  \/ (truthy (arguments request) = true
      /\ ~ In (name request) catalog
      /\ result = text_result (Str ("Unknown tool: " ++ name request)) true
      /\ log' = log).
Proof.
  intros Hrun Herr.
  destruct (dispatch now transport access_key access_secret request log)
    as [[r|e] l] eqn:Hbody.
  - right. rewrite (handler_passes _ _ _ _ _ _ _ _ Hbody) in Hrun.
    inversion Hrun; subst. exact (dispatch_error_envelope _ _ _ _ _ _ _ _ Hbody Herr).
  - left. rewrite (handler_catches _ _ _ _ _ _ _ _ Hbody) in Hrun.
    inversion Hrun; subst. exists e. split; reflexivity.
Qed.

Lemma error_envelope_text_run :
  let request := {| name := "retrieve_call_details";
                    arguments := Obj [ ("cursor", Str "abc") ] |} in
  let result :=
    text_result (Str "Error: At least one filter parameter is required") true in
  (exists e,
     dispatch demo_now demo_transport "key" "secret" request [] = (Throw e, [])
     /\ result = text_result (Str ("Error: " ++ error_message e)) true)
  \/ (truthy (arguments request) = true
      /\ ~ In (name request) catalog
      /\ result = text_result (Str ("Unknown tool: " ++ name request)) true
      /\ @nil AxiosRequestConfig = []).
Proof.
  exact (error_envelope_text demo_now demo_transport "key" "secret"
           {| name := "retrieve_call_details";
              arguments := Obj [ ("cursor", Str "abc") ] |} [] []
           (text_result (Str "Error: At least one filter parameter is required") true)
           eq_refl eq_refl).
Defined.

(** C6, refuted as stated: a request for an unknown tool without arguments
    is answered with the missing-arguments error, which names neither
    "Unknown tool" nor the requested tool. *)
Lemma unknown_tool_without_arguments :
  let request := {| name := "summarize_call"; arguments := Undefined |} in
  ~ In (name request) catalog
  /\ demo_handler request []
     = (Normal {| content := [ {| type := "text";
                                  text := Str "Error: No arguments provided" |} ];
                  isError := true |}, [])
  /\ includes "Unknown tool" "Error: No arguments provided" = false
  /\ includes "summarize_call" "Error: No arguments provided" = false.
Proof.
  split; [|vm_compute; repeat split].
  apply not_in_catalog. repeat split.
Qed.

(** C6, amended: a request that names a tool outside the catalog and
    carries arguments (any truthy value) is answered, without a throw and
    without a network call, by the error envelope whose text is
    "Unknown tool: " followed by the requested name. *)
Theorem unknown_tool_envelope now transport access_key access_secret
    (request : CallToolRequest) (log : Log) :
  ~ In (name request) catalog ->
  truthy (arguments request) = true ->
  CallToolRequestHandler now transport access_key access_secret request log
  = (Normal (text_result (Str ("Unknown tool: " ++ name request)) true), log)
  /\ isError (text_result (Str ("Unknown tool: " ++ name request)) true) = true
  /\ includes "Unknown tool" ("Unknown tool: " ++ name request) = true
  /\ includes (name request) ("Unknown tool: " ++ name request) = true.
Proof.
  intros Hname Hargs. split; [|split; [reflexivity|split]].
  - apply handler_passes. now apply dispatch_unknown_tool.
  - apply includes_prefix. exact (prefix_app "Unknown tool" (": " ++ name request)).
  - apply (includes_app _ "Unknown tool: "). apply includes_prefix.
    apply prefix_refl.
Qed.

Lemma unknown_tool_envelope_run :
  demo_handler {| name := "summarize_call"; arguments := Obj [] |} []
  = (Normal (text_result (Str "Unknown tool: summarize_call") true), [])
  /\ isError (text_result (Str "Unknown tool: summarize_call") true) = true
  /\ includes "Unknown tool" "Unknown tool: summarize_call" = true
  /\ includes "summarize_call" "Unknown tool: summarize_call" = true.
Proof.
  apply (unknown_tool_envelope demo_now demo_transport "key" "secret"
           {| name := "summarize_call"; arguments := Obj [] |} []).
  - apply not_in_catalog. repeat split.
  - reflexivity.
Defined.

(** *** The signature generator *)

Lemma payload_segment (payload : Value) :
  (if truthy payload then ToString (JSON_stringify payload) else "")
  = falsy_as_absent_payload_text payload.
Proof.
  destruct payload as [| |[|]|[|p|p]|[|c s]|l|l]; reflexivity.
Qed.

(** A decimal numeral begins with a digit or the minus sign. *)
Lemma Z_to_string_head (n : Z) :
  exists c rest, Z_to_string n = String c rest /\ (N_of_ascii c <= 57)%N.
Proof.
  unfold Z_to_string. destruct n as [|p|p]; cbn [Z.to_int NilZero.string_of_int].
  - do 2 eexists. split; [reflexivity|]. vm_compute. discriminate.
  - unfold NilZero.string_of_uint.
    destruct (Pos.to_uint p); cbn [NilEmpty.string_of_uint];
      do 2 eexists; (split; [reflexivity|]); vm_compute; discriminate.
  - do 2 eexists. split; [reflexivity|]. vm_compute. discriminate.
Qed.

(** The payload segment is never one of the words a careless conversion of
    an absent payload would leave in the string. *)
Lemma payload_segment_not_literal (payload : Value) :
  falsy_as_absent_payload_text payload <> "undefined"
  /\ falsy_as_absent_payload_text payload <> "null".
Proof.
  assert (Hnum : forall n, Z_to_string n <> "undefined" /\ Z_to_string n <> "null").
  { intros n. destruct (Z_to_string_head n) as [c [rest [-> Hc]]].
    split; intros H; inversion H; subst; vm_compute in Hc; contradiction. }
  destruct payload as [| |[|]|[|p|p]|[|c s]|l|l]; simpl;
    try (split; discriminate).
  - apply Hnum.
  - unfold json_text. simpl.
    destruct (map _ l); split; discriminate.
  - unfold json_text. simpl.
    destruct (flat_map _ l); split; discriminate.
Qed.

(** C2: for every method, path and timestamp and every optional payload
    (the object the dispatcher passes as body or query parameters, or
    nothing), the generator returns the padded base64 text of the
    HMAC-SHA-256, keyed with the access secret, of method, path, timestamp and
    payload segment joined by single newlines in that order; the segment is
    the JSON serialization of the payload, the empty string when the payload
    is absent, and never the word "undefined" or "null". *)
Theorem generateSignature_canonical (this : GongClient)
    (method path timestamp : string) (payload : option (list (string * Value))) :
  generateSignature this method path timestamp (payload_value payload)
  = Normal
      (base64_encode
         (hmac_sha256
            (TextEncoder_encode (accessSecret this))
            (TextEncoder_encode
               (method ++ newline ++ path ++ newline ++ timestamp ++ newline
                  ++ optional_payload_text payload))))
  /\ optional_payload_text None = ""
  /\ optional_payload_text payload <> "undefined"
  /\ optional_payload_text payload <> "null".
Proof.
  split; [|split; [reflexivity|]].
  - rewrite generateSignature_normal. unfold signature_of, stringToSign.
    destruct payload as [fields|]; reflexivity.
  - destruct payload as [fields|].
    + exact (payload_segment_not_literal (Obj fields)).
    + split; discriminate.
Qed.

(** What the dispatcher signs, [data || params], is such an optional
    payload: the body when there is one, the query parameters otherwise. *)
Lemma dispatcher_payload (body query : option (list (string * Value))) :
  logical_or (payload_value body) (payload_value query)
  = payload_value (match body with Some fields => Some fields | None => query end).
Proof. destruct body, query; reflexivity. Qed.

(** The signature of a list-calls request without bounds, whose payload is
    the empty object, and of a request without payload. *)
Example signature_of_empty_object :
  generateSignature demo_client "GET" "/calls" demo_now (Obj [])
  = Normal "prjFECXCs5Z7cpQGa7+KhL1avUaHkUApA8RIGaKA8XM="
  /\ generateSignature demo_client "GET" "/calls" demo_now Undefined
     = Normal "gs9lb9OtDuyCpPfgGrJx6E2vvgaOpslaXZsbbGWJJiA=".
Proof. vm_compute. split; reflexivity. Qed.

(** *** Sensitivity of the canonical string *)

(** A newline-free head of a newline-separated string is determined by the
    string. *)
Lemma newline_split (a b x y : string) :
  no_newline a = true -> no_newline b = true ->
  a ++ newline ++ x = b ++ newline ++ y -> a = b /\ x = y.
Proof.
  revert b. induction a as [|c a IH]; intros [|d b] Ha Hb Heq; simpl in *.
  - inversion Heq. auto.
  - inversion Heq; subst. apply andb_true_iff in Hb. destruct Hb as [Hd _].
    discriminate Hd.
  - inversion Heq; subst. apply andb_true_iff in Ha. destruct Ha as [Hc _].
    discriminate Hc.
  - inversion Heq; subst.
    apply andb_true_iff in Ha. apply andb_true_iff in Hb.
    destruct (IH b (proj2 Ha) (proj2 Hb) H1) as [-> ->]. auto.
Qed.

(** Newline-free method, path and timestamp are recovered from the string
    that is signed, together with the payload segment. *)
Lemma stringToSign_injective m1 p1 t1 v1 m2 p2 t2 v2 :
  no_newline m1 = true -> no_newline p1 = true -> no_newline t1 = true ->
  no_newline m2 = true -> no_newline p2 = true -> no_newline t2 = true ->
  stringToSign m1 p1 t1 v1 = stringToSign m2 p2 t2 v2 ->
  m1 = m2 /\ p1 = p2 /\ t1 = t2
  /\ falsy_as_absent_payload_text v1 = falsy_as_absent_payload_text v2.
Proof.
  intros Hm1 Hp1 Ht1 Hm2 Hp2 Ht2. unfold stringToSign. rewrite !payload_segment.
  intros H.
  apply newline_split in H; [|assumption..]. destruct H as [-> H].
  apply newline_split in H; [|assumption..]. destruct H as [-> H].
  apply newline_split in H; [|assumption..]. destruct H as [-> H].
  auto.
Qed.

Lemma append_cancel (s a b : string) : s ++ a = s ++ b -> a = b.
Proof. induction s as [|c s IH]; simpl; intros H; [exact H|]. inversion H. auto. Qed.

(** C5, refuted as stated: inputs that differ and have the same signature.
    A newline moved from the path into the method; a payload with a field
    holding [undefined] against the empty object; a secret followed by a zero
    character against the secret. *)
Lemma signature_collisions :
  ("GET" ++ newline ++ "/calls", "extensive") <> ("GET", "/calls" ++ newline ++ "extensive")
  /\ generateSignature demo_client ("GET" ++ newline ++ "/calls") "extensive"
       demo_now Undefined
     = generateSignature demo_client "GET" ("/calls" ++ newline ++ "extensive")
         demo_now Undefined
  /\ Obj [ ("fromDateTime", Undefined) ] <> Obj []
  /\ generateSignature demo_client "GET" "/calls" demo_now
       (Obj [ ("fromDateTime", Undefined) ])
     = generateSignature demo_client "GET" "/calls" demo_now (Obj [])
  /\ "secret" ++ NUL <> "secret"
  /\ generateSignature {| accessKey := "key"; accessSecret := "secret" ++ NUL |}
       "GET" "/calls" demo_now (Obj [])
     = generateSignature {| accessKey := "key"; accessSecret := "secret" |}
         "GET" "/calls" demo_now (Obj []).
Proof.
  vm_compute. repeat split; discriminate.
Qed.

(** C5, amended: two inputs whose methods, paths and timestamps hold no
    newline and that differ in method, path, timestamp or payload segment (the
    JSON serialization of a truthy payload, empty otherwise) have different
    canonical strings; the empty object and the absent payload canonicalize
    differently. *)
Theorem canonical_string_sensitivity m1 p1 t1 v1 m2 p2 t2 v2 :
  no_newline m1 = true -> no_newline p1 = true -> no_newline t1 = true ->
  no_newline m2 = true -> no_newline p2 = true -> no_newline t2 = true ->
  (m1 <> m2 \/ p1 <> p2 \/ t1 <> t2
   \/ falsy_as_absent_payload_text v1 <> falsy_as_absent_payload_text v2
   -> stringToSign m1 p1 t1 v1 <> stringToSign m2 p2 t2 v2)
  /\ (forall method path timestamp,
        stringToSign method path timestamp (Obj [])
        <> stringToSign method path timestamp Undefined).
Proof.
  intros Hm1 Hp1 Ht1 Hm2 Hp2 Ht2. split.
  - intros Hdiff Heq.
    destruct (stringToSign_injective _ _ _ _ _ _ _ _ Hm1 Hp1 Ht1 Hm2 Hp2 Ht2 Heq)
      as [Hm [Hp [Ht Hv]]].
    destruct Hdiff as [H|[H|[H|H]]]; contradiction.
  - intros method path timestamp. unfold stringToSign. simpl truthy. cbv iota.
    intros Heq. repeat apply append_cancel in Heq. discriminate Heq.
Qed.

Lemma canonical_string_sensitivity_run :
  (("GET" <> "POST" \/ "/calls" <> "/calls" \/ demo_now <> demo_now
    \/ falsy_as_absent_payload_text (Obj []) <> falsy_as_absent_payload_text (Obj []))
   -> stringToSign "GET" "/calls" demo_now (Obj [])
      <> stringToSign "POST" "/calls" demo_now (Obj []))
  /\ (forall method path timestamp,
        stringToSign method path timestamp (Obj [])
        <> stringToSign method path timestamp Undefined).
Proof.
  apply (canonical_string_sensitivity "GET" "/calls" demo_now (Obj [])
           "POST" "/calls" demo_now (Obj [])); reflexivity.
Defined.

(** On the concrete request the two payloads also sign differently. *)
Example empty_object_and_absent_sign_differently :
  generateSignature demo_client "GET" "/calls" demo_now (Obj [])
  <> generateSignature demo_client "GET" "/calls" demo_now Undefined.
Proof. vm_compute. discriminate. Qed.

(** ** The rest of the client and of the router *)

(** *** The dispatcher *)

(** X1: a request hands exactly one configuration to the transport,
    whatever the transport answers, and returns the transport's outcome; the
    configuration carries the method, the base address followed by the path,
    the parameters and the body as given, the basic-authorization header of
    the credentials, and a signature header that signs the method, the path,
    the very timestamp of the timestamp header and the body when the body is
    truthy, the parameters otherwise. *)
Theorem request_signs_what_it_sends
    now transport this (m p : string) (query body : Value) (log : Log) :
  exists config,
    request now transport this m p query body log
    = (answer transport log config, (log ++ [config])%list)
    /\ method config = m
    /\ url config = "https://api.gong.io/v2" ++ p
    /\ params config = query
    /\ data config = body
    /\ header config "Content-Type" = Some "application/json"
    /\ header config "Authorization"
       = Some ("Basic " ++ base64_encode
                 (TextEncoder_encode (accessKey this ++ ":" ++ accessSecret this)))
    /\ header config "X-Gong-AccessKey" = Some (accessKey this)
    /\ header config "X-Gong-Timestamp" = Some now
    /\ header config "X-Gong-Signature"
       = Some (spec_signature falsy_as_absent_payload_text (accessSecret this)
                 m p now (if truthy body then body else query)).
Proof.
  exists (config_of now this m p query body).
  split; [apply request_run|]. repeat split.
  unfold header, config_of, signature_of, spec_signature, stringToSign. simpl.
  now rewrite payload_segment.
Qed.

(** *** The list-calls method *)

(** X2: the list-calls method issues one GET to the calls endpoint without
    a body; the query parameters hold each truthy bound under its name, in the
    order from, to, and nothing for a bound that is absent or empty; the
    signature is over the JSON text of the parameter object, which is the
    text of the empty object when there is no bound. *)
Theorem listCalls_request
    now transport this (fromDateTime toDateTime : Value) (log : Log) :
  exists config,
    listCalls now transport this fromDateTime toDateTime log
    = (answer transport log config, (log ++ [config])%list)
    /\ method config = "GET"
    /\ url config = "https://api.gong.io/v2/calls"
    /\ data config = Undefined
    /\ params config
       = Obj ((if truthy fromDateTime then [ ("fromDateTime", fromDateTime) ] else [])
              ++ (if truthy toDateTime then [ ("toDateTime", toDateTime) ] else []))%list
    /\ header config "X-Gong-Signature"
       = Some (spec_signature json_text (accessSecret this) "GET" "/calls" now
                 (params config))
    /\ (truthy fromDateTime = false -> truthy toDateTime = false ->
        json_text (params config) = "{}").
Proof.
  unfold listCalls. eexists. split; [apply request_run|].
  destruct (truthy fromDateTime), (truthy toDateTime); simpl;
    repeat split; intros; discriminate.
Qed.

Lemma listCalls_request_run :
  exists config,
    listCalls demo_now demo_transport demo_client Undefined (Str "") []
    = (answer demo_transport [] config, [config])
    /\ method config = "GET"
    /\ url config = "https://api.gong.io/v2/calls"
    /\ data config = Undefined
    /\ params config = Obj []
    /\ header config "X-Gong-Signature"
       = Some (spec_signature json_text "secret" "GET" "/calls" demo_now
                 (params config))
    /\ (truthy Undefined = false -> truthy (Str "") = false ->
        json_text (params config) = "{}").
Proof.
  exact (listCalls_request demo_now demo_transport demo_client Undefined (Str "") []).
Defined.

(** *** The other two type guards *)

Lemma guard_clause (present : bool) (v : Value) :
  negb present || (typeof v =? "string") = true <-> (present = true -> is_string v).
Proof.
  rewrite orb_true_iff, negb_true_iff, typeof_string. split.
  - intros [H|H] Hp; [congruence|exact H].
  - intros H. destruct present; [right; auto|left; reflexivity].
Qed.

Lemma non_null_object (v : Value) :
  (typeof v =? "object") && negb (is_null v) = true <-> typeof v = "object" /\ v <> Null.
Proof.
  rewrite andb_true_iff, negb_true_iff, String.eqb_eq. split; intros [Ho Hn]; split; auto.
  - intros ->. discriminate.
  - destruct v; try reflexivity. contradiction.
Qed.

Lemma list_calls_guard_iff (v : Value) :
  isGongListCallsArgs v = true <-> list_calls_shape v.
Proof.
  unfold isGongListCallsArgs, list_calls_shape.
  rewrite 2!andb_true_iff, non_null_object, !guard_clause. tauto.
Qed.

(** X3: the list-calls guard accepts exactly the non-null objects whose
    [fromDateTime] and [toDateTime], where the field is present, are strings.
    A bound that is present with a value of another type, [null] and
    [undefined] included, is rejected; the empty string is accepted. *)
Theorem list_calls_guard :
  (forall v : Value, isGongListCallsArgs v = true <-> list_calls_shape v)
  /\ (forall (fields : list (string * Value)) (v : Value),
        ~ is_string v ->
        isGongListCallsArgs (Obj (("fromDateTime", v) :: fields)) = false
        /\ isGongListCallsArgs (Obj (("toDateTime", v) :: fields)) = false)
  /\ isGongListCallsArgs (Obj [ ("fromDateTime", Str ""); ("toDateTime", Str "") ]) = true.
Proof.
  split; [exact list_calls_guard_iff|]. split; [|reflexivity].
  intros fields v Hv.
  split; apply not_true_is_false; rewrite list_calls_guard_iff; intros [_ [Hf Ht]].
  - apply Hv, Hf. reflexivity.
  - apply Hv, Ht. reflexivity.
Qed.

Lemma string_array_clause (v : Value) :
  string_array_or_falsy v = true <-> (truthy v = true -> string_array v = true).
Proof.
  unfold string_array_or_falsy, string_array.
  rewrite orb_true_iff, negb_true_iff. split.
  - intros [H|H] Ht; [congruence|]. now destruct v.
  - intros H. destruct (truthy v); [right|left; reflexivity].
    specialize (H eq_refl). now destruct v.
Qed.

Lemma string_clause (v : Value) :
  string_or_falsy v = true <-> (truthy v = true -> is_string v).
Proof. unfold string_or_falsy. apply guard_clause. Qed.

Lemma call_details_guard_iff (v : Value) :
  isGongRetrieveCallDetailsArgs v = true <-> call_details_shape v.
Proof.
  unfold isGongRetrieveCallDetailsArgs, call_details_shape.
  destruct (negb (typeof v =? "object") || is_null v) eqn:Hobj.
  - split; [discriminate|]. intros [[Ho Hn] _]. exfalso.
    apply orb_true_iff in Hobj. destruct Hobj as [H|H].
    + apply negb_true_iff, String.eqb_neq in H. contradiction.
    + destruct v; try discriminate. contradiction.
  - apply orb_false_iff in Hobj. destruct Hobj as [Ho Hn].
    apply negb_false_iff, String.eqb_eq in Ho.
    rewrite !andb_true_iff, !string_array_clause, !string_clause. split.
    + intros [[[[[H1 H2] H3] H4] H5] H6]. split; [|split].
      * split; [exact Ho|]. intros ->. discriminate.
      * intros k Hk. each_field Hk; assumption.
      * intros k Hk. each_field Hk; assumption.
    + intros [_ [Harr Hstr]].
      repeat split; (apply Harr || apply Hstr); simpl; auto 6.
Qed.

(** X4: the call-details guard accepts exactly the non-null objects in
    which each truthy [callIds] or [primaryUserIds] is an array of strings and
    each truthy [fromDateTime], [toDateTime], [context] or [cursor] is a
    string.  A field holding a falsy value of whatever type does not make it
    reject, and neither does the lack of every selector. *)
Theorem call_details_guard :
  (forall v : Value, isGongRetrieveCallDetailsArgs v = true <-> call_details_shape v)
  /\ (forall (k : string) (v : Value),
        truthy v = false -> isGongRetrieveCallDetailsArgs (Obj [ (k, v) ]) = true)
  /\ (forall cursor : string,
        isGongRetrieveCallDetailsArgs (Obj [ ("cursor", Str cursor) ]) = true).
Proof.
  split; [exact call_details_guard_iff|]. split.
  - intros k v Hv. apply call_details_guard_iff.
    assert (Hget : forall k', truthy (get (Obj [ (k, v) ]) k') = false).
    { intros k'. simpl. destruct (k =? k'); [exact Hv|reflexivity]. }
    split; [split; [reflexivity|discriminate]|].
    split; intros k' _ Ht; rewrite Hget in Ht; discriminate.
  - intros cursor. apply call_details_guard_iff.
    split; [split; [reflexivity|discriminate]|]. split.
    + intros k Hk. each_field Hk; discriminate.
    + intros k Hk. each_field Hk; try discriminate. intros _. now exists cursor.
Qed.

(** *** The three tools through the handler *)

Lemma object_is_truthy (v : Value) :
  typeof v = "object" -> v <> Null -> truthy v = true.
Proof. destruct v; simpl; try discriminate; try reflexivity. contradiction. Qed.

Lemma list_calls_args_truthy (v : Value) : isGongListCallsArgs v = true -> truthy v = true.
Proof.
  unfold isGongListCallsArgs. rewrite 2!andb_true_iff, non_null_object.
  intros [[[Ho Hn] _] _]. now apply object_is_truthy.
Qed.

Lemma transcripts_args_truthy (v : Value) :
  isGongRetrieveTranscriptsArgs v = true -> truthy v = true.
Proof.
  unfold isGongRetrieveTranscriptsArgs. rewrite 3!andb_true_iff, non_null_object.
  intros [[[[Ho Hn] _] _] _]. now apply object_is_truthy.
Qed.

Lemma call_details_args_truthy (v : Value) :
  isGongRetrieveCallDetailsArgs v = true -> truthy v = true.
Proof.
  intros H. apply call_details_guard_iff in H. destruct H as [[Ho Hn] _].
  now apply object_is_truthy.
Qed.

Section Tools.

Variable now : string.
Variable transport : Log -> AxiosRequestConfig -> Completion AxiosResponse.
Variable access_key access_secret : string.

Local Abbreviation handler :=
  (CallToolRequestHandler now transport access_key access_secret).
Local Abbreviation client := (gongClient access_key access_secret).

(** A client call that issues one request, wrapped by the handler. *)
Lemma try_call_envelope (call : M Value) (log : Log) (config : AxiosRequestConfig) :
  call log = (answer transport log config, (log ++ [config])%list) ->
  try_catch
    (response <- call ;; ret (text_result (JSON_stringify_indent2 response) false))
    (fun error => ret (text_result (Str ("Error: " ++ error_message error)) true)) log
  = (Normal (envelope_of (transport log config)), (log ++ [config])%list).
Proof.
  unfold try_catch, bind, ret, answer, envelope_of. intros ->.
  destruct (transport log config); reflexivity.
Qed.

Lemma list_calls_run (args : Value) (log : Log) :
  isGongListCallsArgs args = true ->
  handler {| name := "list_calls"; arguments := args |} log
  = (Normal (envelope_of
               (transport log
                  (config_of now client "GET" "/calls"
                     (Obj (selected args "fromDateTime" ++ selected args "toDateTime"))
                     Undefined))),
     (log ++ [config_of now client "GET" "/calls"
                (Obj (selected args "fromDateTime" ++ selected args "toDateTime"))
                Undefined])%list).
Proof.
  intros Hvalid. unfold CallToolRequestHandler, dispatch. simpl.
  rewrite (list_calls_args_truthy _ Hvalid), Hvalid. simpl.
  apply try_call_envelope. unfold listCalls. rewrite request_run. unfold selected.
  destruct (truthy (get args "fromDateTime")), (truthy (get args "toDateTime"));
    reflexivity.
Qed.

Lemma transcripts_run (args : Value) (log : Log) :
  isGongRetrieveTranscriptsArgs args = true ->
  handler {| name := "retrieve_transcripts"; arguments := args |} log
  = (Normal (envelope_of
               (transport log
                  (config_of now client "POST" "/calls/transcript" Undefined
                     (transcripts_body (get args "callIds"))))),
     (log ++ [config_of now client "POST" "/calls/transcript" Undefined
                (transcripts_body (get args "callIds"))])%list).
Proof.
  intros Hvalid. unfold CallToolRequestHandler, dispatch. simpl.
  rewrite (transcripts_args_truthy _ Hvalid), Hvalid. simpl.
  apply try_call_envelope. unfold retrieveTranscripts. now rewrite request_run.
Qed.

Lemma call_details_run (args : Value) (log : Log) :
  isGongRetrieveCallDetailsArgs args = true ->
  no_selector args = false ->
  handler {| name := "retrieve_call_details"; arguments := args |} log
  = (Normal (envelope_of
               (transport log
                  (config_of now client "POST" "/calls/extensive" Undefined
                     (body_of args)))),
     (log ++ [config_of now client "POST" "/calls/extensive" Undefined
                (body_of args)])%list).
Proof.
  intros Hvalid Hsel. unfold CallToolRequestHandler, dispatch. simpl.
  assert (Ht := call_details_args_truthy _ Hvalid).
  rewrite Ht, Hvalid. simpl.
  apply try_call_envelope. rewrite retrieveCallDetails_run, Hsel; [reflexivity|].
  destruct args; try discriminate; reflexivity.
Qed.

Lemma no_arguments_run (request : CallToolRequest) (log : Log) :
  truthy (arguments request) = false ->
  handler request log
  = (Normal (text_result (Str "Error: No arguments provided") true), log).
Proof.
  intros Hargs. unfold CallToolRequestHandler, dispatch, try_catch. now rewrite Hargs.
Qed.

End Tools.

Lemma assoc_in (k : string) (l : list (string * Value)) (v : Value) :
  assoc k l = Some v -> In (k, v) l.
Proof.
  induction l as [|[k' x] rest IH]; simpl; [discriminate|].
  destruct (String.eqb_spec k' k) as [->|_].
  - intros H. inversion H. now left.
  - intros H. right. now apply IH.
Qed.

(** A property an object has is one of its bindings. *)
Lemma has_property_in (l : list (string * Value)) (k : string) :
  has_property (Obj l) k = true -> In (k, get (Obj l) k) l.
Proof.
  simpl. destruct (assoc k l) as [v|] eqn:H; [|discriminate].
  intros _. now apply assoc_in.
Qed.

Lemma selected_in (args : Value) (f k : string) (v : Value) :
  In (k, v) (selected args f) -> k = f /\ v = get args f /\ truthy (get args f) = true.
Proof.
  unfold selected. destruct (truthy (get args f)); simpl; [|contradiction].
  intros [H|[]]. inversion H. auto.
Qed.

Lemma bound_truthy (args : Value) (k : string) :
  isGongListCallsArgs args = true ->
  In k [ "fromDateTime"; "toDateTime" ] ->
  truthy (get args k) = nonempty_string (get args k).
Proof.
  intros Hvalid Hk. apply list_calls_guard_iff in Hvalid.
  destruct Hvalid as [_ [Hf Ht]].
  assert (H : has_property args k = true -> is_string (get args k))
    by (each_field Hk; assumption).
  destruct (has_property args k) eqn:Hp.
  - destruct (H eq_refl) as [s ->]. reflexivity.
  - now rewrite (absent_get _ _ Hp).
Qed.

(** X5: a list-calls invocation whose arguments pass the guard issues one
    GET to the calls endpoint, without a body, and is answered with the
    envelope of the transport's outcome.  The query parameters are exactly
    the bounds that are non-empty strings, under their names and in the order
    from, to: a bound that is absent or empty is not sent, and a parameter that
    is sent bears one of the two names and the argument's value, so no other
    field of the arguments reaches the request. *)
Theorem list_calls_tool
    now transport access_key access_secret (args : Value) (log : Log) :
  isGongListCallsArgs args = true ->
  exists config,
    CallToolRequestHandler now transport access_key access_secret
      {| name := "list_calls"; arguments := args |} log
    = (Normal (envelope_of (transport log config)), (log ++ [config])%list)
    /\ method config = "GET"
    /\ url config = "https://api.gong.io/v2/calls"
    /\ data config = Undefined
    /\ params config
       = Obj ((if nonempty_string (get args "fromDateTime")
               then [ ("fromDateTime", get args "fromDateTime") ] else [])
              ++ (if nonempty_string (get args "toDateTime")
                  then [ ("toDateTime", get args "toDateTime") ] else []))%list
    /\ (forall k, In k [ "fromDateTime"; "toDateTime" ] ->
          (nonempty_string (get args k) = true ->
           get (params config) k = get args k)
          /\ (nonempty_string (get args k) = false ->
              has_property (params config) k = false))
    /\ (forall k, has_property (params config) k = true ->
          In k [ "fromDateTime"; "toDateTime" ]
          /\ get (params config) k = get args k
          /\ nonempty_string (get (params config) k) = true).
Proof.
  intros Hvalid. eexists. split; [apply list_calls_run; exact Hvalid|].
  assert (Hb := fun k => bound_truthy args k Hvalid).
  assert (Hf := Hb "fromDateTime" (or_introl eq_refl)).
  assert (Ht := Hb "toDateTime" (or_intror (or_introl eq_refl))).
  do 3 (split; [reflexivity|]). simpl params. unfold selected.
  split; [now rewrite Hf, Ht|]. split.
  - intros k Hk. rewrite <- (Hb k Hk).
    destruct (truthy (get args "fromDateTime")) eqn:Ef,
             (truthy (get args "toDateTime")) eqn:Et;
      each_field Hk; rewrite ?Ef, ?Et; simpl; split; intros; congruence.
  - intros k Hk. apply has_property_in in Hk.
    fold (selected args "fromDateTime") (selected args "toDateTime") in Hk |- *.
    apply in_app_or in Hk.
    destruct Hk as [Hk|Hk]; apply selected_in in Hk;
      destruct Hk as [-> [Hget Hk]]; rewrite Hget;
      (split; [simpl; auto|split; [reflexivity|congruence]]).
Qed.

(** The arguments carry a third string field, which is not sent. *)
Lemma list_calls_tool_run :
  exists config,
    CallToolRequestHandler demo_now demo_transport "key" "secret"
      {| name := "list_calls";
         arguments := Obj [ ("fromDateTime", Str "2024-03-01T00:00:00Z");
                            ("toDateTime", Str ""); ("limit", Str "5") ] |} []
    = (Normal (envelope_of (demo_transport [] config)), [config])
    /\ method config = "GET"
    /\ url config = "https://api.gong.io/v2/calls"
    /\ data config = Undefined
    /\ params config = Obj [ ("fromDateTime", Str "2024-03-01T00:00:00Z") ].
Proof.
  destruct (list_calls_tool demo_now demo_transport "key" "secret"
              (Obj [ ("fromDateTime", Str "2024-03-01T00:00:00Z");
                     ("toDateTime", Str ""); ("limit", Str "5") ]) [] eq_refl)
    as [config [Hrun [Hmethod [Hurl [Hdata [Hparams _]]]]]].
  exists config. repeat split; assumption.
Defined.

(** X6: a retrieve-transcripts invocation whose arguments pass the guard
    issues one POST to the transcript endpoint, without query parameters,
    whose body is the filter with the caller's array of identifiers, the
    empty array included, and the three inclusion flags set; it is answered
    with the envelope of the transport's outcome. *)
Theorem retrieve_transcripts_tool
    now transport access_key access_secret (args : Value) (log : Log) :
  isGongRetrieveTranscriptsArgs args = true ->
  exists config ids,
    get args "callIds" = Arr ids
    /\ Forall is_string ids
    /\ CallToolRequestHandler now transport access_key access_secret
         {| name := "retrieve_transcripts"; arguments := args |} log
       = (Normal (envelope_of (transport log config)), (log ++ [config])%list)
    /\ method config = "POST"
    /\ url config = "https://api.gong.io/v2/calls/transcript"
    /\ params config = Undefined
    /\ data config
       = Obj [ ("filter",
                Obj [ ("callIds", Arr ids);
                      ("includeEntities", Bool true);
                      ("includeInteractionsSummary", Bool true);
                      ("includeTrackers", Bool true) ]) ].
Proof.
  intros Hvalid.
  destruct (proj1 (retrieve_transcripts_validator_shape args) Hvalid)
    as [fields [ids [-> [Hassoc Hall]]]].
  eexists. exists ids.
  split; [simpl; now rewrite Hassoc|]. split; [exact Hall|].
  split; [apply transcripts_run; exact Hvalid|].
  repeat split. simpl. now rewrite Hassoc.
Qed.

Lemma retrieve_transcripts_tool_run :
  exists config ids,
    get (Obj [ ("callIds", Arr []) ]) "callIds" = Arr ids
    /\ Forall is_string ids
    /\ CallToolRequestHandler demo_now demo_transport "key" "secret"
         {| name := "retrieve_transcripts";
            arguments := Obj [ ("callIds", Arr []) ] |} []
       = (Normal (envelope_of (demo_transport [] config)), [config])
    /\ method config = "POST"
    /\ url config = "https://api.gong.io/v2/calls/transcript"
    /\ params config = Undefined
    /\ data config
       = Obj [ ("filter",
                Obj [ ("callIds", Arr ids);
                      ("includeEntities", Bool true);
                      ("includeInteractionsSummary", Bool true);
                      ("includeTrackers", Bool true) ]) ].
Proof.
  exact (retrieve_transcripts_tool demo_now demo_transport "key" "secret"
           (Obj [ ("callIds", Arr []) ]) [] eq_refl).
Defined.

Lemma filter_in (args : Value) (k : string) (v : Value) :
  In (k, v) (selected args "callIds" ++ selected args "fromDateTime"
               ++ selected args "toDateTime" ++ selected args "primaryUserIds"
               ++ selected args "cursor")%list ->
  In k filter_fields /\ v = get args k /\ truthy (get args k) = true.
Proof.
  intros H. repeat (apply in_app_or in H; destruct H as [H|H]);
    apply selected_in in H; destruct H as [-> H]; (split; [simpl; auto 6|exact H]).
Qed.

(** X7: a call-details invocation whose arguments pass the guard and hold
    a truthy selector issues one POST to the extensive endpoint and is
    answered with the envelope of the transport's outcome.  The transmitted
    filter has no field beyond the five the method copies; its [callIds] and
    [primaryUserIds] are arrays of strings, its [fromDateTime], [toDateTime]
    and [cursor] non-empty strings, and the transmitted context is a non-empty
    string. *)
Theorem call_details_tool
    now transport access_key access_secret (args : Value) (log : Log)
    (selector : string) :
  isGongRetrieveCallDetailsArgs args = true ->
  In selector selector_fields -> truthy (get args selector) = true ->
  exists config,
    CallToolRequestHandler now transport access_key access_secret
      {| name := "retrieve_call_details"; arguments := args |} log
    = (Normal (envelope_of (transport log config)), (log ++ [config])%list)
    /\ method config = "POST"
    /\ url config = "https://api.gong.io/v2/calls/extensive"
    /\ params config = Undefined
    /\ (forall k, has_property (get (data config) "filter") k = true ->
          In k filter_fields
          /\ get (get (data config) "filter") k = get args k
          /\ (In k [ "callIds"; "primaryUserIds" ] ->
              string_array (get (get (data config) "filter") k) = true)
          /\ (In k [ "fromDateTime"; "toDateTime"; "cursor" ] ->
              nonempty_string (get (get (data config) "filter") k) = true))
    /\ nonempty_string (get (get (data config) "contentSelector") "context") = true.
Proof.
  intros Hvalid Hin Hsel. eexists.
  split; [apply call_details_run; [exact Hvalid|exact (selector_present _ _ Hin Hsel)]|].
  do 3 (split; [reflexivity|]).
  apply call_details_guard_iff in Hvalid. destruct Hvalid as [_ [Harr Hstr]].
  split.
  - intros k Hk. change (get (data _) "filter") with (filter_of args) in Hk |- *.
    unfold filter_of in Hk |- *. apply has_property_in in Hk. apply filter_in in Hk.
    destruct Hk as [Hfield [Hget Ht]].
    split; [exact Hfield|]. split; [exact Hget|]. rewrite Hget. split.
    + intros Hk. now apply Harr.
    + intros Hk.
      assert (Hs : is_string (get args k)) by (apply Hstr; [each_field Hk; simpl; auto|exact Ht]).
      destruct Hs as [s Hs]. rewrite Hs in Ht |- *. exact Ht.
  - change (nonempty_string (logical_or (get args "context") (Str "Extended")) = true).
    unfold logical_or. destruct (truthy (get args "context")) eqn:Ht; [|reflexivity].
    destruct (Hstr "context" (or_intror (or_intror (or_introl eq_refl))) Ht) as [s Hs].
    rewrite Hs in Ht |- *. exact Ht.
Qed.

Lemma call_details_tool_run :
  let args := Obj [ ("callIds", Arr [ Str "123" ]); ("cursor", Str "abc");
                    ("verbose", Bool true) ] in
  exists config,
    CallToolRequestHandler demo_now demo_transport "key" "secret"
      {| name := "retrieve_call_details"; arguments := args |} []
    = (Normal (envelope_of (demo_transport [] config)), [config])
    /\ method config = "POST"
    /\ url config = "https://api.gong.io/v2/calls/extensive"
    /\ params config = Undefined
    /\ (forall k, has_property (get (data config) "filter") k = true ->
          In k filter_fields
          /\ get (get (data config) "filter") k = get args k
          /\ (In k [ "callIds"; "primaryUserIds" ] ->
              string_array (get (get (data config) "filter") k) = true)
          /\ (In k [ "fromDateTime"; "toDateTime"; "cursor" ] ->
              nonempty_string (get (get (data config) "filter") k) = true))
    /\ nonempty_string (get (get (data config) "contentSelector") "context") = true.
Proof.
  apply (call_details_tool demo_now demo_transport "key" "secret"
           (Obj [ ("callIds", Arr [ Str "123" ]); ("cursor", Str "abc");
                  ("verbose", Bool true) ]) [] "callIds").
  - reflexivity.
  - simpl. auto.
  - reflexivity.
Defined.

(** X8: an invocation whose arguments are missing or falsy ([undefined],
    [null], [false], [0], the empty string) is answered, for every tool name,
    known or not, with the missing-arguments error envelope, and no request is
    issued. *)
Theorem missing_arguments_envelope
    now transport access_key access_secret (request : CallToolRequest) (log : Log) :
  truthy (arguments request) = false ->
  CallToolRequestHandler now transport access_key access_secret request log
  = (Normal (text_result (Str "Error: No arguments provided") true), log).
Proof. apply no_arguments_run. Qed.

Lemma missing_arguments_envelope_run :
  CallToolRequestHandler demo_now demo_transport "key" "secret"
    {| name := "list_calls"; arguments := Null |} []
  = (Normal (text_result (Str "Error: No arguments provided") true), []).
Proof.
  apply (missing_arguments_envelope demo_now demo_transport "key" "secret"
           {| name := "list_calls"; arguments := Null |} []).
  reflexivity.
Defined.

(** X9: an invocation of a known tool whose arguments are present and
    fail the tool's guard is answered with the error envelope that names the
    tool, and no request is issued. *)
Theorem invalid_arguments_envelope
    now transport access_key access_secret (args : Value) (log : Log) :
  truthy args = true ->
  (isGongListCallsArgs args = false ->
   CallToolRequestHandler now transport access_key access_secret
     {| name := "list_calls"; arguments := args |} log
   = (Normal (text_result (Str "Error: Invalid arguments for list_calls") true), log))
  /\ (isGongRetrieveTranscriptsArgs args = false ->
      CallToolRequestHandler now transport access_key access_secret
        {| name := "retrieve_transcripts"; arguments := args |} log
      = (Normal (text_result
                   (Str "Error: Invalid arguments for retrieve_transcripts") true),
         log))
  /\ (isGongRetrieveCallDetailsArgs args = false ->
      CallToolRequestHandler now transport access_key access_secret
        {| name := "retrieve_call_details"; arguments := args |} log
      = (Normal (text_result
                   (Str "Error: Invalid arguments for retrieve_call_details") true),
         log)).
Proof.
  intros Hargs.
  repeat split; intros Hinvalid;
    unfold CallToolRequestHandler, dispatch, try_catch; simpl;
    now rewrite Hargs, Hinvalid.
Qed.

Lemma invalid_arguments_envelope_run :
  let args := Obj [ ("callIds", Str "not-an-array") ] in
  (isGongListCallsArgs args = false ->
   CallToolRequestHandler demo_now demo_transport "key" "secret"
     {| name := "list_calls"; arguments := args |} []
   = (Normal (text_result (Str "Error: Invalid arguments for list_calls") true), []))
  /\ (isGongRetrieveTranscriptsArgs args = false ->
      CallToolRequestHandler demo_now demo_transport "key" "secret"
        {| name := "retrieve_transcripts"; arguments := args |} []
      = (Normal (text_result
                   (Str "Error: Invalid arguments for retrieve_transcripts") true),
         []))
  /\ (isGongRetrieveCallDetailsArgs args = false ->
      CallToolRequestHandler demo_now demo_transport "key" "secret"
        {| name := "retrieve_call_details"; arguments := args |} []
      = (Normal (text_result
                   (Str "Error: Invalid arguments for retrieve_call_details") true),
         [])).
Proof.
  exact (invalid_arguments_envelope demo_now demo_transport "key" "secret"
           (Obj [ ("callIds", Str "not-an-array") ]) [] eq_refl).
Defined.

Lemma handler_log now transport access_key access_secret request log :
  snd (CallToolRequestHandler now transport access_key access_secret request log)
  = snd (dispatch now transport access_key access_secret request log).
Proof.
  unfold CallToolRequestHandler, try_catch.
  destruct (dispatch _ _ _ _ request log) as [[result|e] log']; reflexivity.
Qed.

Lemma bind_ret_log {A B} (call : M A) (f : A -> B) (log : Log) :
  snd ((x <- call ;; ret (f x)) log) = snd (call log).
Proof. unfold bind, ret. destruct (call log) as [[a|e] log']; reflexivity. Qed.

Lemma truthy_nullish (v : Value) : truthy v = true -> nullish v = false.
Proof. destruct v; simpl; try discriminate; reflexivity. Qed.

(** X10: whatever the request, the handler returns an envelope and never
    throws, and it issues at most one network call: the log of requests is
    left as it was or extended by exactly one request, and that request goes
    to one of the three endpoints of the client. *)
Theorem handler_issues_at_most_one_request
    now transport access_key access_secret (request : CallToolRequest) (log : Log) :
  exists result log',
    CallToolRequestHandler now transport access_key access_secret request log
    = (Normal result, log')
    /\ (log' = log
        \/ exists config,
             log' = (log ++ [config])%list
             /\ In (method config, url config) endpoints).
Proof.
  destruct (handler_returns now transport access_key access_secret request log)
    as [result [log' Hrun]].
  exists result, log'. split; [exact Hrun|].
  assert (Hlog := handler_log now transport access_key access_secret request log).
  rewrite Hrun in Hlog. simpl in Hlog. subst log'.
  unfold dispatch.
  destruct (truthy (arguments request)) eqn:Hargs; simpl; [|left; reflexivity].
  destruct (name request =? "list_calls").
  { destruct (isGongListCallsArgs _); simpl; [|left; reflexivity].
    rewrite bind_ret_log. unfold listCalls. rewrite request_run.
    right. eexists. split; [reflexivity|]. simpl. auto. }
  destruct (name request =? "retrieve_transcripts").
  { destruct (isGongRetrieveTranscriptsArgs _); simpl; [|left; reflexivity].
    rewrite bind_ret_log. unfold retrieveTranscripts. rewrite request_run.
    right. eexists. split; [reflexivity|]. simpl. auto. }
  destruct (name request =? "retrieve_call_details"); [|left; reflexivity].
  destruct (isGongRetrieveCallDetailsArgs _); simpl; [|left; reflexivity].
  rewrite bind_ret_log, retrieveCallDetails_run by exact (truthy_nullish _ Hargs).
  destruct (no_selector (arguments request)); [left; reflexivity|].
  right. eexists. split; [reflexivity|]. simpl. auto.
Qed.

Lemma call_details_tool_requires_a_filter_run :
  CallToolRequestHandler demo_now demo_transport "key" "secret"
    {| name := "retrieve_call_details";
       arguments := Obj [ ("cursor", Str "abc"); ("fromDateTime", Str "") ] |} []
  = (Normal (text_result
               (Str "Error: At least one filter parameter is required") true), []).
Proof.
  apply (call_details_tool_requires_a_filter demo_now demo_transport "key" "secret"
           (Obj [ ("cursor", Str "abc"); ("fromDateTime", Str "") ]) []);
    reflexivity.
Defined.

(** X12: the call-details method reads six fields of its arguments and
    nothing else: two argument values that agree on [callIds],
    [fromDateTime], [toDateTime], [primaryUserIds], [cursor] and [context]
    give the same outcome and the same request. *)
Theorem retrieveCallDetails_reads_six_fields
    now transport this (a b : Value) (log : Log) :
  nullish a = false -> nullish b = false ->
  (forall k, In k call_details_fields -> get a k = get b k) ->
  retrieveCallDetails now transport this a log
  = retrieveCallDetails now transport this b log.
Proof.
  intros Ha Hb Hsame. rewrite !retrieveCallDetails_run by assumption.
  unfold no_selector, body_of, filter_of, selected.
  rewrite !(Hsame "callIds"), !(Hsame "fromDateTime"), !(Hsame "toDateTime"),
    !(Hsame "primaryUserIds"), !(Hsame "cursor"), !(Hsame "context")
    by (simpl; auto 7).
  reflexivity.
Qed.

Lemma retrieveCallDetails_reads_six_fields_run :
  retrieveCallDetails demo_now demo_transport demo_client
    (Obj [ ("callIds", Arr [ Str "123" ]); ("limit", Num 10) ]) []
  = retrieveCallDetails demo_now demo_transport demo_client
      (Obj [ ("verbose", Bool true); ("callIds", Arr [ Str "123" ]) ]) [].
Proof.
  apply retrieveCallDetails_reads_six_fields; try reflexivity.
  intros k Hk. unfold call_details_fields in Hk. each_field Hk; reflexivity.
Defined.

(** *** Arrays as arguments *)

(** A field name that begins with a letter is no array index. *)
Lemma named_key_not_index (i : nat) (c : ascii) (rest : string) :
  (57 < N_of_ascii c)%N -> (nat_to_string i =? String c rest) = false.
Proof.
  intros Hc. apply String.eqb_neq. unfold nat_to_string.
  destruct (Z_to_string_head (Z.of_nat i)) as [d [r [-> Hd]]].
  intros H. inversion H; subst. apply (N.lt_irrefl 57). now apply N.lt_le_trans with (N_of_ascii c).
Qed.

Lemma array_named_field (l : list Value) (k : string) :
  In k call_details_fields ->
  has_property (Arr l) k = false /\ get (Arr l) k = Undefined.
Proof.
  intros Hk.
  assert (Hidx : forall i, index_lookup k i l = None).
  { induction l as [|x rest IH]; intros i; simpl; [reflexivity|].
    replace (nat_to_string i =? k) with false; [apply IH|].
    symmetry. unfold call_details_fields in Hk.
    each_field Hk; apply named_key_not_index; reflexivity. }
  unfold has_property, get. rewrite Hidx.
  unfold call_details_fields in Hk. each_field Hk; split; reflexivity.
Qed.

(** X13: an array given as the arguments, the empty one included, is an
    object to the guards: the list-calls and the call-details guard accept it,
    the transcripts guard rejects it.  The list-calls tool then sends a
    request without bounds, and the call-details tool answers with the
    missing-filter error without a request. *)
Theorem array_arguments
    now transport access_key access_secret (l : list Value) (log : Log) :
  isGongListCallsArgs (Arr l) = true
  /\ isGongRetrieveCallDetailsArgs (Arr l) = true
  /\ isGongRetrieveTranscriptsArgs (Arr l) = false
  /\ (exists config,
        CallToolRequestHandler now transport access_key access_secret
          {| name := "list_calls"; arguments := Arr l |} log
        = (Normal (envelope_of (transport log config)), (log ++ [config])%list)
        /\ method config = "GET"
        /\ url config = "https://api.gong.io/v2/calls"
        /\ params config = Obj [])
  /\ CallToolRequestHandler now transport access_key access_secret
       {| name := "retrieve_call_details"; arguments := Arr l |} log
     = (Normal (text_result
                  (Str "Error: At least one filter parameter is required") true),
        log).
Proof.
  assert (Hf : forall k, In k call_details_fields ->
                         has_property (Arr l) k = false /\ get (Arr l) k = Undefined)
    by (intros k; apply array_named_field).
  assert (Hlist : isGongListCallsArgs (Arr l) = true).
  { unfold isGongListCallsArgs.
    rewrite (proj1 (Hf "fromDateTime" ltac:(simpl; auto))),
      (proj1 (Hf "toDateTime" ltac:(simpl; auto))). reflexivity. }
  assert (Hdetails : isGongRetrieveCallDetailsArgs (Arr l) = true).
  { unfold isGongRetrieveCallDetailsArgs. cbn [typeof is_null negb orb String.eqb].
    simpl (negb _ || _).
    rewrite (proj2 (Hf "callIds" ltac:(simpl; auto))),
      (proj2 (Hf "fromDateTime" ltac:(simpl; auto))),
      (proj2 (Hf "toDateTime" ltac:(simpl; auto))),
      (proj2 (Hf "primaryUserIds" ltac:(simpl; auto))),
      (proj2 (Hf "context" ltac:(simpl; auto 7))),
      (proj2 (Hf "cursor" ltac:(simpl; auto 7))). reflexivity. }
  split; [exact Hlist|]. split; [exact Hdetails|]. split; [|split].
  - unfold isGongRetrieveTranscriptsArgs.
    rewrite (proj1 (Hf "callIds" ltac:(simpl; auto))). reflexivity.
  - eexists. split; [apply list_calls_run; exact Hlist|].
    do 2 (split; [reflexivity|]). simpl params. unfold selected.
    rewrite (proj2 (Hf "fromDateTime" ltac:(simpl; auto))),
      (proj2 (Hf "toDateTime" ltac:(simpl; auto))). reflexivity.
  - apply (handler_catches _ _ _ _ _ _ _
             (ErrorObj "At least one filter parameter is required")).
    unfold dispatch. cbn [name arguments truthy negb]. simpl (_ =? _).
    cbv iota. rewrite Hdetails. cbn [negb].
    unfold bind, ret. rewrite retrieveCallDetails_run by reflexivity.
    unfold no_selector.
    rewrite (proj2 (Hf "callIds" ltac:(simpl; auto))),
      (proj2 (Hf "fromDateTime" ltac:(simpl; auto))),
      (proj2 (Hf "toDateTime" ltac:(simpl; auto))),
      (proj2 (Hf "primaryUserIds" ltac:(simpl; auto))). reflexivity.
Qed.

(** *** The form of a signature *)

Lemma string_length_app (s t : string) :
  String.length (s ++ t) = (String.length s + String.length t)%nat.
Proof. induction s as [|c s IH]; simpl; [reflexivity|]. now rewrite IH. Qed.

Lemma append_assoc_string (s t u : string) : (s ++ t) ++ u = s ++ (t ++ u).
Proof. induction s as [|c s IH]; simpl; [reflexivity|]. now rewrite IH. Qed.

Lemma base64_digit_length (n : Z) : String.length (base64_digit n) = 1%nat.
Proof. unfold base64_digit. destruct (String.get _ _); reflexivity. Qed.

Lemma get_in (s : string) (i : nat) (c : ascii) :
  String.get i s = Some c -> In c (list_ascii_of_string s).
Proof.
  revert i. induction s as [|d s IH]; intros i; simpl; [discriminate|].
  destruct i as [|i].
  - intros H. inversion H. now left.
  - intros H. right. exact (IH i H).
Qed.

Lemma get_below (s : string) (i : nat) :
  (i < String.length s)%nat -> exists c, String.get i s = Some c.
Proof.
  revert i. induction s as [|d s IH]; intros i Hi; simpl in *; [lia|].
  destruct i as [|i]; [now exists d|]. apply IH. lia.
Qed.

(** A base64 digit is one character of the alphabet. *)
Lemma base64_digit_char (n : Z) : all_base64 (base64_digit n) = true.
Proof.
  unfold base64_digit.
  destruct (get_below base64_alphabet (Z.to_nat (n mod 64))) as [c Hc].
  - change (String.length base64_alphabet) with 64%nat.
    assert (0 <= n mod 64 < 64)%Z by (apply Z.mod_pos_bound; lia). lia.
  - rewrite Hc. unfold all_base64. cbn [list_ascii_of_string forallb].
    rewrite andb_true_r. unfold base64_char.
    apply existsb_exists. exists c. split; [exact (get_in _ _ _ Hc)|].
    apply Ascii.eqb_refl.
Qed.

Lemma all_base64_app (s t : string) :
  all_base64 (s ++ t) = all_base64 s && all_base64 t.
Proof.
  unfold all_base64. induction s as [|c s IH]; simpl; [reflexivity|].
  now rewrite IH, andb_assoc.
Qed.

(** The base64 text of [3 * q + 2] bytes: [4 * q + 3] digits of the
    alphabet and one pad. *)
Lemma base64_encode_two_over (q : nat) (l : list byte) :
  List.length l = (3 * q + 2)%nat ->
  exists digits,
    base64_encode l = digits ++ "="
    /\ String.length digits = (4 * q + 3)%nat
    /\ all_base64 digits = true.
Proof.
  revert l. induction q as [|q IH]; intros l Hl.
  - destruct l as [|a [|b [|c rest]]]; simpl in Hl; try lia.
    eexists. cbn [base64_encode]. split; [|split].
    + rewrite <- !append_assoc_string. reflexivity.
    + rewrite !string_length_app, !base64_digit_length. reflexivity.
    + rewrite !all_base64_app, !base64_digit_char. reflexivity.
  - destruct l as [|a [|b [|c rest]]]; simpl in Hl; try lia.
    destruct (IH rest ltac:(lia)) as [digits [Hd [Hlen Hall]]].
    eexists. cbn [base64_encode]. rewrite Hd. split; [|split].
    + rewrite <- !append_assoc_string. reflexivity.
    + rewrite !string_length_app, !base64_digit_length, Hlen. lia.
    + rewrite !all_base64_app, !base64_digit_char, Hall. reflexivity.
Qed.

Lemma sha256_length (msg : list byte) : List.length (sha256 msg) = 32%nat.
Proof.
  unfold sha256. rewrite length_map.
  set (ws := be_words _).
  assert (H : forall bs h, List.length h = 8%nat ->
                           List.length (fold_left compress bs h) = 8%nat).
  { induction bs as [|b bs IH]; intros h Hh; simpl; [exact Hh|].
    apply IH. reflexivity. }
  specialize (H (blocks (List.length ws) ws) H256 eq_refl).
  destruct (fold_left compress _ H256) as [|a [|b [|c [|d [|e [|f [|g [|h [|i r]]]]]]]]];
    simpl in H; try discriminate. reflexivity.
Qed.

(** X14: for a client whose secret is not empty, the signature generator
    does not throw, and its result has the form of the base64 text of a
    32-byte digest: 43 characters of the base64 alphabet followed by one
    padding character, 44 characters in all. *)
Theorem generateSignature_form (this : GongClient)
    (method path timestamp : string) (payload : Value) :
  accessSecret this <> "" ->
  exists digits,
    generateSignature this method path timestamp payload = Normal (digits ++ "=")
    /\ String.length digits = 43%nat
    /\ all_base64 digits = true
    /\ String.length (digits ++ "=") = 44%nat.
Proof.
  intros _. rewrite generateSignature_normal. unfold signature_of, hmac_sha256.
  destruct (base64_encode_two_over 10 _ (sha256_length
              (xor_pad 92 (hmac_key_block (TextEncoder_encode (accessSecret this)))
               ++ sha256 (xor_pad 54 (hmac_key_block
                                        (TextEncoder_encode (accessSecret this)))
                          ++ TextEncoder_encode
                               (stringToSign method path timestamp payload)))%list))
    as [digits [Hd [Hlen Hall]]].
  exists digits. rewrite Hd. split; [reflexivity|]. split; [exact Hlen|].
  split; [exact Hall|]. rewrite string_length_app, Hlen. reflexivity.
Qed.

Lemma generateSignature_form_run :
  exists digits,
    generateSignature demo_client "GET" "/calls" demo_now (Obj [])
    = Normal (digits ++ "=")
    /\ String.length digits = 43%nat
    /\ all_base64 digits = true
    /\ String.length (digits ++ "=") = 44%nat.
Proof.
  apply (generateSignature_form demo_client "GET" "/calls" demo_now (Obj [])).
  discriminate.
Defined.

(** *** The catalog and the switch *)

(** X15: the tools the router advertises are the tools it dispatches: for
    a request with arguments, the answer is the unknown-tool envelope if and
    only if the requested name is not in the advertised catalog. *)
Theorem unknown_tool_iff_not_advertised
    now transport access_key access_secret (request : CallToolRequest) (log : Log) :
  truthy (arguments request) = true ->
  (fst (CallToolRequestHandler now transport access_key access_secret request log)
   = Normal (text_result (Str ("Unknown tool: " ++ name request)) true)
   <-> ~ In (name request) (map tool_name ListToolsRequestHandler)).
Proof.
  intros Hargs. split.
  - intros Hrun.
    destruct (dispatch now transport access_key access_secret request log)
      as [[r|e] l] eqn:Hbody.
    + rewrite (handler_passes _ _ _ _ _ _ _ _ Hbody) in Hrun. simpl in Hrun.
      inversion Hrun; subst r.
      exact (proj1 (proj2 (dispatch_error_envelope _ _ _ _ _ _ _ _ Hbody eq_refl))).
    + rewrite (handler_catches _ _ _ _ _ _ _ _ Hbody) in Hrun. simpl in Hrun.
      inversion Hrun.
  - intros Hname. apply (dispatch_unknown_tool now transport access_key access_secret
                           request log Hname) in Hargs.
    now rewrite (handler_passes _ _ _ _ _ _ _ _ Hargs).
Qed.

Lemma unknown_tool_iff_not_advertised_run :
  fst (CallToolRequestHandler demo_now demo_transport "key" "secret"
         {| name := "list_users"; arguments := Obj [] |} [])
  = Normal (text_result (Str "Unknown tool: list_users") true)
  <-> ~ In "list_users" (map tool_name ListToolsRequestHandler).
Proof.
  apply (unknown_tool_iff_not_advertised demo_now demo_transport "key" "secret"
           {| name := "list_users"; arguments := Obj [] |} []).
  reflexivity.
Defined.
